(** * breast-monitor: the thermal analysis engine

    A shallow embedding of the analysis code of the backend
    ([backend/services/analyzer.py], [backend/services/llm_service.py],
    [backend/routers/images.py], thresholds of [backend/config.py]) and the
    properties of its behaviour.

    Python floats are IEEE 754 binary64 numbers.  They are modelled by the
    [spec_float] of the Standard Library with [prec = 53] and [emax = 1024];
    sums, differences, products and quotients are the correctly rounded
    operations of [SpecFloat]. *)

From Stdlib Require Import ZArith QArith Qpower List String Ascii Bool Lia Lqa.
From Stdlib Require Import Floats.SpecFloat DecimalString.
Import ListNotations.
Close Scope Q_scope.
Open Scope string_scope.
Open Scope Z_scope.

(** ** Binary64 arithmetic *)

Module PyFloat.

Definition float := spec_float.

Definition prec : Z := 53.
Definition emax : Z := 1024.

Definition fadd : float -> float -> float := SFadd prec emax.
Definition fsub : float -> float -> float := SFsub prec emax.
Definition fmul : float -> float -> float := SFmul prec emax.
Definition fdiv : float -> float -> float := SFdiv prec emax.
Definition fabs : float -> float := SFabs.

(** [x < y], [x <= y], [x > y], [x >= y]: false as soon as one side is NaN. *)
Definition flt (x y : float) : bool := SFltb x y.
Definition fle (x y : float) : bool := SFleb x y.
Definition fgt (x y : float) : bool := SFltb y x.
Definition fge (x y : float) : bool := SFleb y x.

Definition is_finite (x : float) : bool :=
  match x with
  | S754_zero _ | S754_finite _ _ _ => true
  | S754_infinity _ | S754_nan => false
  end.

Definition is_zero (x : float) : bool :=
  match x with S754_zero _ => true | _ => false end.

(** A well-formed binary64 datum: the mantissa is normalised and the
    exponent is in range. *)
Definition valid (x : float) : bool := valid_binary prec emax x.

(** Conversion of an integer (correctly rounded). *)
Definition of_Z (n : Z) : float := binary_normalize prec emax n 0 false.

(** The decimal literal [n * 10^-k], read as the nearest binary64 number:
    [dec 375 1] is [37.5], [dec 8 1] is [0.8]. *)
Definition dec (n : Z) (k : nat) : float :=
  fdiv (of_Z n) (of_Z (10 ^ Z.of_nat k)).

Definition pzero : float := S754_zero false.

(** The exact value of a finite number (0 for the others): the signed
    mantissa times a power of two. *)
Definition pow2 (e : Z) : Q := Qpower 2 e.

Definition Fval (s : bool) (m : positive) : Z := if s then Z.neg m else Z.pos m.

Definition B2Q (x : float) : Q :=
  match x with
  | S754_finite s m e => (inject_Z (Fval s m) * pow2 e)%Q
  | _ => 0%Q
  end.

(** [n / d] rounded to the nearest integer, ties to even ([d > 0]). *)
Definition round_half_even (n d : Z) : Z :=
  let q := n / d in
  match (2 * (n mod d)) ?= d with
  | Lt => q
  | Gt => q + 1
  | Eq => if Z.even q then q else q + 1
  end.

(** [|x| * 10^nd] rounded to the nearest integer, ties to even, for a
    finite [x] of mantissa [m] and exponent [e]. *)
Definition scaled_digits (m : positive) (e : Z) (nd : nat) : Z :=
  if 0 <=? e then Z.pos m * 2 ^ e * 10 ^ Z.of_nat nd
  else round_half_even (Z.pos m * 10 ^ Z.of_nat nd) (2 ^ (- e)).

(** The builtin [round(x, nd)] on a float, [nd >= 0]: the decimal
    number with [nd] digits after the point nearest to the exact value of
    [x] (ties to even), read back as the nearest float.  Zeros, infinities
    and NaN round to themselves. *)
Definition py_round (x : float) (nd : nat) : float :=
  match x with
  | S754_finite s m e =>
      if 0 <=? e then x
      else match scaled_digits m e nd with
           | Z.pos n => fdiv (S754_finite s n 0) (of_Z (10 ^ Z.of_nat nd))
           | _ => S754_zero s
           end
  | _ => x
  end.

(** [numpy.rint]: the nearest integer, ties to even, as a float. *)
Definition np_rint (x : float) : float :=
  match x with
  | S754_finite s m e =>
      if 0 <=? e then x
      else match round_half_even (Z.pos m) (2 ^ (- e)) with
           | Z.pos n => binary_normalize prec emax (if s then Z.neg n else Z.pos n) 0 s
           | _ => S754_zero s
           end
  | _ => x
  end.

(** [round(x, nd)] on a [numpy.float64], [nd > 0]: numpy multiplies by
    [10^nd], rounds to an integer and divides again, each step in
    binary64. *)
Definition np_round (x : float) (nd : nat) : float :=
  let f := of_Z (10 ^ Z.of_nat nd) in
  fdiv (np_rint (fmul x f)) f.

End PyFloat.
Export PyFloat.

(** ** Strings and formatting *)

Module PyStr.

(** The line feed of ["\n"]. *)
Definition nl : string := String (ascii_of_nat 10) EmptyString.

Definition Z_to_string (n : Z) : string :=
  NilZero.string_of_uint (N.to_uint (Z.to_N n)).

Fixpoint zeros (k : nat) : string :=
  match k with O => "" | S k' => "0" ++ zeros k' end.

(** [s] padded on the left with zeros up to [k] characters. *)
Definition pad_left (k : nat) (s : string) : string :=
  zeros (k - String.length s) ++ s.

(** The digits of the fixed-point number [n * 10^-nd], [n >= 0]. *)
Definition fixed (n : Z) (nd : nat) : string :=
  let p := 10 ^ Z.of_nat nd in
  match nd with
  | O => Z_to_string n
  | _ => Z_to_string (n / p) ++ "." ++ pad_left nd (Z_to_string (n mod p))
  end.

Definition sign_str (s : bool) : string := if s then "-" else "".

(** The format specification [.{nd}f] of an f-string on a float: the
    exact value rounded to [nd] decimals (ties to even), printed in fixed
    notation, the sign bit printed also when the digits are all zero. *)
Definition format_f (nd : nat) (x : float) : string :=
  match x with
  | S754_nan => "nan"
  | S754_infinity s => sign_str s ++ "inf"
  | S754_zero s => sign_str s ++ fixed 0 nd
  | S754_finite s m e => sign_str s ++ fixed (scaled_digits m e nd) nd
  end.

(** The decimal number [d * 10^q], [d > 0], read as the nearest float. *)
Definition strtod (d q : Z) : float :=
  if 0 <=? q then of_Z (d * 10 ^ q)
  else fdiv (S754_finite false (Z.to_pos d) 0)
            (S754_finite false (Z.to_pos (10 ^ (- q))) 0).

(** [m * 2^e >= 10^p] *)
Definition ge_pow10 (m : positive) (e p : Z) : bool :=
  2 ^ Z.max (- e) 0 * 10 ^ Z.max p 0
  <=? Z.pos m * 2 ^ Z.max e 0 * 10 ^ Z.max (- p) 0.

(** The decimal exponent [p] of [m * 2^e]: [10^p <= m * 2^e < 10^(p+1)]. *)
Definition floor_log10 (m : positive) (e : Z) : Z :=
  let p0 := (e + Z.log2 (Z.pos m)) * 30103 / 100000 in
  if ge_pow10 m e (p0 + 1) then p0 + 1
  else if ge_pow10 m e p0 then p0 else p0 - 1.

(** The shortest decimal [(d, q)], of [k] digits or more, that reads back
    as [m * 2^e]; of the two [k]-digit neighbours the nearer is tried
    first.  Seventeen digits always suffice. *)
Fixpoint shortest (fuel : nat) (k : Z) (m : positive) (e p : Z) : Z * Z :=
  let q := p - k + 1 in
  let a := Z.pos m * 2 ^ Z.max e 0 * 10 ^ Z.max (- q) 0 in
  let b := 2 ^ Z.max (- e) 0 * 10 ^ Z.max q 0 in
  let lo := a / b in
  let near := round_half_even a b in
  let far := if near =? lo then lo + 1 else lo in
  let x := S754_finite false m e in
  match fuel with
  | O => (near, q)
  | S fuel' =>
      match SFcompare (strtod near q) x, SFcompare (strtod far q) x with
      | Some Eq, _ => (near, q)
      | _, Some Eq => (far, q)
      | _, _ => shortest fuel' (k + 1) m e p
      end
  end.

(** Trailing zeros go from the digits to the exponent. *)
Fixpoint strip_zeros (fuel : nat) (d q : Z) : Z * Z :=
  match fuel with
  | O => (d, q)
  | S fuel' => if d mod 10 =? 0 then strip_zeros fuel' (d / 10) (q + 1) else (d, q)
  end.

(** [repr] of a float: the shortest digits, in fixed notation when the
    decimal point falls within the first 16 digits or up to four places
    in front of them, in exponent notation otherwise. *)
Definition float_repr (x : float) : string :=
  match x with
  | S754_nan => "nan"
  | S754_infinity s => sign_str s ++ "inf"
  | S754_zero s => sign_str s ++ "0.0"
  | S754_finite s m e =>
      let (d0, q0) := shortest 16 1 m e (floor_log10 m e) in
      let (d, q) := strip_zeros 17 d0 q0 in
      let ds := Z_to_string d in
      let n := Z.of_nat (String.length ds) in
      let decpt := q + n in
      sign_str s ++
      if (decpt <=? -4) || (16 <? decpt) then
        let ex := decpt - 1 in
        String.substring 0 1 ds
        ++ (if 1 <? n then "." ++ String.substring 1 (Z.to_nat (n - 1)) ds else "")
        ++ "e" ++ (if ex <? 0 then "-" else "+")
        ++ pad_left 2 (Z_to_string (Z.abs ex))
      else if decpt <=? 0 then
        "0." ++ zeros (Z.to_nat (- decpt)) ++ ds
      else if n <=? decpt then
        ds ++ zeros (Z.to_nat (decpt - n)) ++ ".0"
      else
        String.substring 0 (Z.to_nat decpt) ds ++ "."
        ++ String.substring (Z.to_nat decpt) (Z.to_nat (n - decpt)) ds
  end.

(** [sep.join(l)] *)
Fixpoint join (sep : string) (l : list string) : string :=
  match l with
  | [] => ""
  | [s] => s
  | s :: l' => s ++ sep ++ join sep l'
  end.

(** [t] occurs in [s]. *)
Fixpoint contains (t s : string) : bool :=
  if String.prefix t s then true
  else match s with
       | EmptyString => false
       | String _ s' => contains t s'
       end.

End PyStr.
Export PyStr.

(** ** Exceptions and builtins *)

Module Py.

Inductive exn_class :=
| ZeroDivisionError | ValueError | IndexError | ImportError | OtherException.

(** A raised exception: its class and what [str(e)] gives. *)
Record exn := Exn { exn_cls : exn_class; exn_str : string }.

Inductive result (A : Type) :=
| Ok (a : A)
| Raise (e : exn).
Arguments Ok {A} a.
Arguments Raise {A} e.

Definition bind {A B} (r : result A) (k : A -> result B) : result B :=
  match r with Ok a => k a | Raise e => Raise e end.

Definition returns {A} (r : result A) : bool :=
  match r with Ok _ => true | Raise _ => false end.

(** [l[a:b]] for [0 <= a <= b]; Python clips the bounds to the list. *)
Definition slice {A} (a b : nat) (l : list A) : list A :=
  firstn (b - a) (skipn a l).

Definition py_len {A} (l : list A) : Z := Z.of_nat (List.length l).

(** [enumerate(l)] *)
Fixpoint enumerate_from {A} (i : nat) (l : list A) : list (nat * A) :=
  match l with
  | [] => []
  | x :: l' => (i, x) :: enumerate_from (S i) l'
  end.
Definition enumerate {A} (l : list A) : list (nat * A) := enumerate_from 0 l.

(** [names[i]]: IndexError past the end. *)
Definition getitem {A} (l : list A) (i : nat) : result A :=
  match nth_error l i with
  | Some x => Ok x
  | None => Raise (Exn IndexError "list index out of range")
  end.

(** The builtin [sum] on a list of floats.  CPython starts from the
    integer 0, so the first step is [0.0 + x]; up to 3.11 the rest is a
    plain left-to-right accumulation, from 3.12 on it is Neumaier's
    compensated summation. *)
Inductive sum_impl := NaiveSum | NeumaierSum.

Fixpoint neumaier (f c : float) (xs : list float) : float :=
  match xs with
  | [] => if negb (is_zero c) && is_finite c then fadd f c else f
  | x :: xs' =>
      let t := fadd f x in
      let c' := if fge (fabs f) (fabs x)
                then fadd c (fadd (fsub f t) x)
                else fadd c (fadd (fsub x t) f) in
      neumaier t c' xs'
  end.

Definition py_sum (impl : sum_impl) (xs : list float) : float :=
  match impl with
  | NaiveSum => fold_left fadd xs pzero
  | NeumaierSum =>
      match xs with
      | [] => pzero
      | x :: xs' => neumaier (fadd pzero x) pzero xs'
      end
  end.

(** [x / n] for a sum or a float [x] and an integer [n], a length or the
    literal 2.  The divisor is zero for the length of an empty list only,
    whose [sum] is the integer 0: the exception is the one of [0 / 0]. *)
Definition py_truediv (x : float) (n : Z) : result float :=
  if n =? 0 then Raise (Exn ZeroDivisionError "division by zero")
  else Ok (fdiv x (of_Z n)).

(** The builtins [max] and [min]: the first element is kept until a
    strictly larger (smaller) one comes. *)
Definition py_max (xs : list float) : result float :=
  match xs with
  | [] => Raise (Exn ValueError "max() arg is an empty sequence")
  | x :: xs' => Ok (fold_left (fun m y => if fgt y m then y else m) xs' x)
  end.

Definition py_min (xs : list float) : result float :=
  match xs with
  | [] => Raise (Exn ValueError "min() arg is an empty sequence")
  | x :: xs' => Ok (fold_left (fun m y => if flt y m then y else m) xs' x)
  end.

End Py.
Export Py.

Notation "x <- e ;; k" := (bind e (fun x => k))
  (at level 61, e at next level, right associativity).

(** ** backend/config.py: the analysis thresholds *)

Module settings.
Definition ASYMMETRY_NORMAL : float := dec 5 1.     (* 0.5 *)
Definition ASYMMETRY_ELEVATED : float := dec 10 1.  (* 1.0 *)
Definition TEMP_NORMAL_MAX : float := dec 375 1.    (* 37.5 *)
Definition TEMP_ELEVATED_MAX : float := dec 380 1.  (* 38.0 *)
End settings.

(** ** backend/services/analyzer.py *)

(** The three values of [risk_level]. *)
Inductive RiskLevel := NORMAL | ELEVATED | HIGH.

Definition level_str (l : RiskLevel) : string :=
  match l with NORMAL => "NORMAL" | ELEVATED => "ELEVATED" | HIGH => "HIGH" end.

(** NORMAL < ELEVATED < HIGH *)
Definition level_rank (l : RiskLevel) : nat :=
  match l with NORMAL => 0 | ELEVATED => 1 | HIGH => 2 end.

Definition level_le (l1 l2 : RiskLevel) : Prop :=
  (level_rank l1 <= level_rank l2)%nat.

(** The dictionary returned by [calculate_metrics]; its six keys. *)
Record Metrics := {
  avg_left : float;
  avg_right : float;
  avg_total : float;
  asymmetry : float;
  max_temp : float;
  min_temp : float
}.

Module AnalyzerService.

Definition calculate_metrics (impl : sum_impl) (temps : list float)
  : result Metrics :=
  let left_temps := slice 0 4 temps in
  let right_temps := slice 4 8 temps in
  avg_left <- py_truediv (py_sum impl left_temps) (py_len left_temps) ;;
  avg_right <- py_truediv (py_sum impl right_temps) (py_len right_temps) ;;
  let asymmetry := fabs (fsub avg_left avg_right) in
  avg_total <- py_truediv (fadd avg_left avg_right) 2 ;;
  max_temp <- py_max temps ;;
  min_temp <- py_min temps ;;
  Ok {| avg_left := py_round avg_left 2;
        avg_right := py_round avg_right 2;
        avg_total := py_round avg_total 2;
        asymmetry := py_round asymmetry 2;
        max_temp := py_round max_temp 2;
        min_temp := py_round min_temp 2 |}.

(** The four descriptions [classify_risk] can append. *)
Definition significant_asymmetry (asymmetry : float) : string :=
  "Значительная асимметрия: " ++ format_f 2 asymmetry ++ "°C".
Definition moderate_asymmetry (asymmetry : float) : string :=
  "Умеренная асимметрия: " ++ format_f 2 asymmetry ++ "°C".
Definition elevated_temperature (max_temp : float) : string :=
  "Повышенная температура: " ++ format_f 1 max_temp ++ "°C".
Definition above_normal_temperature (max_temp : float) : string :=
  "Температура выше нормы: " ++ format_f 1 max_temp ++ "°C".

Definition classify_risk (asymmetry max_temp : float)
  : RiskLevel * list string :=
  let anomalies := [] in
  (* Check asymmetry *)
  let anomalies :=
    if fge asymmetry settings.ASYMMETRY_ELEVATED
    then (anomalies ++ [significant_asymmetry asymmetry])%list
    else if fge asymmetry settings.ASYMMETRY_NORMAL
    then (anomalies ++ [moderate_asymmetry asymmetry])%list
    else anomalies in
  (* Check max temperature *)
  let anomalies :=
    if fge max_temp settings.TEMP_ELEVATED_MAX
    then (anomalies ++ [elevated_temperature max_temp])%list
    else if fge max_temp settings.TEMP_NORMAL_MAX
    then (anomalies ++ [above_normal_temperature max_temp])%list
    else anomalies in
  (* Determine risk level *)
  let risk_level :=
    if fge asymmetry settings.ASYMMETRY_ELEVATED
       || fge max_temp settings.TEMP_ELEVATED_MAX
    then HIGH
    else if fge asymmetry settings.ASYMMETRY_NORMAL
            || fge max_temp settings.TEMP_NORMAL_MAX
    then ELEVATED
    else NORMAL in
  (risk_level, anomalies).

Definition zone_names : list string :=
  [ "Левая верхняя внутренняя";
    "Левая верхняя внешняя";
    "Левая нижняя внутренняя";
    "Левая нижняя внешняя";
    "Правая верхняя внутренняя";
    "Правая верхняя внешняя";
    "Правая нижняя внутренняя";
    "Правая нижняя внешняя" ].

(** The margin [0.8] of [find_anomaly_zones]. *)
Definition margin : float := dec 8 1.

(** The entry appended for zone [name] with the given deviation. *)
Definition zone_entry (name : string) (deviation : float) : string :=
  name ++ ": +" ++ format_f 1 deviation ++ "°C".

(** One turn of the loop of [find_anomaly_zones] on the list built so
    far. *)
Definition zone_step (avg_temp : float) (anomalies : list string)
  (it : nat * float) : result (list string) :=
  let (i, temp) := it in
  let deviation := fsub temp avg_temp in
  if fgt deviation margin then
    name <- getitem zone_names i ;;
    Ok (anomalies ++ [zone_entry name deviation])%list
  else Ok anomalies.

(** A [for] loop whose body can raise. *)
Fixpoint for_each {A S} (body : S -> A -> result S) (l : list A) (s : S)
  : result S :=
  match l with
  | [] => Ok s
  | x :: l' => s' <- body s x ;; for_each body l' s'
  end.

Definition find_anomaly_zones (impl : sum_impl) (temps : list float)
  : result (list string) :=
  let anomalies := [] in
  avg_temp <- py_truediv (py_sum impl temps) (py_len temps) ;;
  for_each (zone_step avg_temp) (enumerate temps) anomalies.

(** The conclusion texts embed the metrics with a plain [{...}]
    replacement field, that is [str] of the float. *)
(** The three metric lines common to the three templates. *)
Definition metric_lines (metrics : Metrics) : string :=
  "Средняя температура левой груди: " ++ float_repr (avg_left metrics) ++ "°C" ++ nl
  ++ "Средняя температура правой груди: " ++ float_repr (avg_right metrics) ++ "°C" ++ nl
  ++ "Асимметрия: " ++ float_repr (asymmetry metrics) ++ "°C" ++ nl ++ nl.

(** [for anomaly in anomalies: conclusion += f"• {anomaly}\n"] *)
Definition add_bullets (conclusion : string) (anomalies : list string)
  : string :=
  fold_left (fun c anomaly => c ++ "• " ++ anomaly ++ nl) anomalies conclusion.

Definition normal_closing : string :=
  "Температурное распределение симметричное, признаков аномалий не обнаружено.".

Definition elevated_closing : string :=
  nl ++ "Рекомендации: Повторите измерение через 24-48 часов. "
  ++ "При сохранении асимметрии рекомендуется консультация специалиста.".

Definition high_closing : string :=
  nl ++ "⚠️ ВАЖНО: Рекомендуется обратиться к врачу-маммологу "
  ++ "для дополнительного обследования." ++ nl ++ nl
  ++ "Данная система не является медицинским диагностическим устройством "
  ++ "и не заменяет консультацию специалиста.".

Definition generate_conclusion (metrics : Metrics) (risk_level : RiskLevel)
  (anomalies : list string) : string :=
  match risk_level with
  | NORMAL =>
      "✅ Все показатели в пределах нормы." ++ nl ++ nl
      ++ metric_lines metrics
      ++ normal_closing
  | ELEVATED =>
      let conclusion :=
        "⚠️ Обнаружены незначительные отклонения." ++ nl ++ nl
        ++ metric_lines metrics
        ++ "Выявленные отклонения:" ++ nl in
      let conclusion := add_bullets conclusion anomalies in
      conclusion ++ elevated_closing
  | HIGH =>
      let conclusion :=
        "🔴 Обнаружены значимые отклонения от нормы." ++ nl ++ nl
        ++ metric_lines metrics
        ++ "Выявленные отклонения:" ++ nl in
      let conclusion := add_bullets conclusion anomalies in
      conclusion ++ high_closing
  end.

End AnalyzerService.

(** ** backend/services/llm_service.py *)

(** What a call ends with: a value or an exception of a class deriving
    from [Exception] (a [result]), or an exception of a class deriving from
    [BaseException] only, given by the name of its class:
    [asyncio.CancelledError] when the task is cancelled at the [await] of
    the Gemini call, [KeyboardInterrupt].  An [except Exception] does not
    catch the latter. *)
Inductive outcome (A : Type) :=
| Returns (r : result A)
| Escapes (name : string).
Arguments Returns {A} r.
Arguments Escapes {A} name.

(** A [result] is read as the outcome it is. *)
Coercion Returns : result >-> outcome.

Module LLMService.

(** A provider handle: the OpenAI client or the Gemini model, built from
    an API key. *)
Record client := Client { api_key : string }.

(** The attributes of the service object. *)
Record t := {
  openai_key : string;
  gemini_key : string;
  openai_client : option client;    (* self._openai_client *)
  gemini_model : option client      (* self._gemini_model *)
}.

(** What the two provider packages do during one call of the service;
    they are not part of the repository.
    - [openai_init key]: [from openai import OpenAI] followed by
      [OpenAI(api_key=key)];
    - [openai_chat c prompt]: [c.chat.completions.create(...)] followed
      by [.choices[0].message.content], which is a string or [None];
    - [gemini_init key]: the import of [google.generativeai],
      [configure(api_key=key)] and [GenerativeModel('gemini-pro')];
    - [gemini_generate m prompt]: the awaited
      [m.generate_content_async(prompt)] followed by [.text].
    The two constructions are called outside any [try] but the one for
    [ImportError]: what else they raise goes through, whatever its
    class. *)
Record world := {
  openai_init : string -> result client;
  openai_chat : client -> string -> outcome (option string);
  gemini_init : string -> result client;
  gemini_generate : client -> string -> outcome (option string)
}.

(** Methods read and update the attributes of [self] and can raise. *)
Definition M (A : Type) : Type := t -> outcome A * t.

Definition ret {A} (a : A) : M A := fun self => (Returns (Ok a), self).
Definition raise {A} (e : exn) : M A := fun self => (Returns (Raise e), self).
Definition mbind {A B} (m : M A) (k : A -> M B) : M B :=
  fun self =>
    match m self with
    | (Returns (Ok a), self') => k a self'
    | (Returns (Raise e), self') => (Returns (Raise e), self')
    | (Escapes name, self') => (Escapes name, self')
    end.
Definition get : M t := fun self => (Returns (Ok self), self).
Definition put (self' : t) : M unit := fun _ => (Returns (Ok tt), self').

(** Truth value of a string and of an optional string ([None] and the
    empty string are false). *)
Definition truthy (s : string) : bool :=
  match s with EmptyString => false | _ => true end.
Definition truthy_opt (r : option string) : bool :=
  match r with Some s => truthy s | None => false end.

Definition is_ImportError (e : exn) : bool :=
  match exn_cls e with ImportError => true | _ => false end.

Definition _get_openai_client (w : world) : M (option client) :=
  mbind get (fun self =>
  match openai_client self with
  | None =>
      if truthy (openai_key self) then
        match openai_init w (openai_key self) with
        | Ok c =>
            mbind (put {| openai_key := openai_key self;
                          gemini_key := gemini_key self;
                          openai_client := Some c;
                          gemini_model := gemini_model self |})
                  (fun _ => ret (Some c))
        | Raise e =>
            (* except ImportError: pass *)
            if is_ImportError e then ret None else raise e
        end
      else ret None
  | Some c => ret (Some c)
  end).

Definition _get_gemini_model (w : world) : M (option client) :=
  mbind get (fun self =>
  match gemini_model self with
  | None =>
      if truthy (gemini_key self) then
        match gemini_init w (gemini_key self) with
        | Ok c =>
            mbind (put {| openai_key := openai_key self;
                          gemini_key := gemini_key self;
                          openai_client := openai_client self;
                          gemini_model := Some c |})
                  (fun _ => ret (Some c))
        | Raise e =>
            if is_ImportError e then ret None else raise e
        end
      else ret None
  | Some c => ret (Some c)
  end).

Definition _build_prompt (metrics : Metrics) (risk_level : RiskLevel)
  (anomalies : list string) : string :=
  "Ты медицинский ассистент системы мониторинга температуры молочных желез. " ++ nl
  ++ "Сгенерируй краткое заключение по результатам термографического анализа." ++ nl
  ++ nl
  ++ "Данные измерения:" ++ nl
  ++ "- Средняя температура левой груди: " ++ float_repr (avg_left metrics) ++ "°C" ++ nl
  ++ "- Средняя температура правой груди: " ++ float_repr (avg_right metrics) ++ "°C" ++ nl
  ++ "- Температурная асимметрия: " ++ float_repr (asymmetry metrics) ++ "°C" ++ nl
  ++ "- Максимальная температура: " ++ float_repr (max_temp metrics) ++ "°C" ++ nl
  ++ "- Уровень риска: " ++ level_str risk_level ++ nl
  ++ "- Выявленные отклонения: "
  ++ (match anomalies with [] => "нет" | _ => join ", " anomalies end) ++ nl
  ++ nl
  ++ "Требования к заключению:" ++ nl
  ++ "1. Объясни результаты простым языком" ++ nl
  ++ "2. Укажи возможные причины отклонений (если есть)" ++ nl
  ++ "3. Дай рекомендации по дальнейшим действиям" ++ nl
  ++ "4. ОБЯЗАТЕЛЬНО укажи, что система не заменяет врачебную консультацию" ++ nl
  ++ "5. Не ставь диагнозы, говори только о температурных показателях" ++ nl
  ++ nl
  ++ "Формат: 2-3 абзаца, без заголовков. Пиши на русском языке.".

(** [try: ... except Exception as e: print(...); return None] around a
    provider call: an exception of a class deriving from [Exception] is
    caught and the method returns [None] (what the handler prints is left
    out); any other exception goes through. *)
Definition guarded (attempt : outcome (option string)) : outcome (option string) :=
  match attempt with
  | Returns (Ok r) => Returns (Ok r)
  | Returns (Raise _) => Returns (Ok None)
  | Escapes name => Escapes name
  end.

Definition generate_conclusion_openai (w : world) (metrics : Metrics)
  (risk_level : RiskLevel) (anomalies : list string) : M (option string) :=
  mbind (_get_openai_client w) (fun client =>
  match client with
  | None => ret None
  | Some c =>
      fun self =>
        (guarded (let prompt := _build_prompt metrics risk_level anomalies in
                  openai_chat w c prompt), self)
  end).

Definition generate_conclusion_gemini (w : world) (metrics : Metrics)
  (risk_level : RiskLevel) (anomalies : list string) : M (option string) :=
  mbind (_get_gemini_model w) (fun model =>
  match model with
  | None => ret None
  | Some c =>
      fun self =>
        (guarded (let prompt := _build_prompt metrics risk_level anomalies in
                  gemini_generate w c prompt), self)
  end).

Definition _generate_rule_based (metrics : Metrics) (risk_level : RiskLevel)
  (anomalies : list string) : string :=
  match risk_level with
  | NORMAL =>
      "✅ Результаты термографического анализа в пределах нормы." ++ nl ++ nl
      ++ "Средняя температура левой молочной железы составляет "
      ++ float_repr (avg_left metrics) ++ "°C, "
      ++ "правой — " ++ float_repr (avg_right metrics)
      ++ "°C. Температурная асимметрия (" ++ float_repr (asymmetry metrics) ++ "°C) "
      ++ "находится в допустимых пределах, что свидетельствует о нормальном распределении тепла."
      ++ nl ++ nl
      ++ "Рекомендуется продолжать регулярный мониторинг. Данная система является "
      ++ "вспомогательным инструментом и не заменяет консультацию врача-маммолога."
  | ELEVATED =>
      let anomaly_text :=
        match anomalies with
        | [] => "незначительная асимметрия"
        | _ => join ", " anomalies
        end in
      "⚠️ Обнаружены незначительные отклонения от нормы." ++ nl ++ nl
      ++ "Выявлено: " ++ anomaly_text ++ ". Средняя температура левой молочной железы — "
      ++ float_repr (avg_left metrics) ++ "°C, правой — "
      ++ float_repr (avg_right metrics) ++ "°C. "
      ++ "Подобные отклонения могут быть связаны с естественными колебаниями температуры тела, "
      ++ "физической активностью, фазой менструального цикла или внешними факторами."
      ++ nl ++ nl
      ++ "Рекомендуется повторить измерение через 24-48 часов для подтверждения результатов. "
      ++ "При сохранении асимметрии рекомендуется консультация специалиста. "
      ++ "Данная система не является медицинским диагностическим устройством."
  | HIGH =>
      let anomaly_text :=
        match anomalies with
        | [] => "значительная температурная асимметрия"
        | _ => join ", " anomalies
        end in
      "🔴 Обнаружены значимые отклонения от нормы." ++ nl ++ nl
      ++ "Выявлено: " ++ anomaly_text ++ ". Температурная асимметрия составляет "
      ++ float_repr (asymmetry metrics) ++ "°C, "
      ++ "что превышает пороговое значение. Максимальная зафиксированная температура: "
      ++ float_repr (max_temp metrics) ++ "°C. Подобные изменения могут указывать на различные состояния, "
      ++ "требующие внимания специалиста." ++ nl ++ nl
      ++ "⚠️ ВАЖНО: Рекомендуется обратиться к врачу-маммологу для дополнительного обследования. "
      ++ "Данная система является вспомогательным скрининговым инструментом и НЕ заменяет "
      ++ "профессиональную медицинскую диагностику. Не откладывайте визит к специалисту."
  end.

(** [if result: return result]: the text is returned when it is neither
    [None] nor empty. *)
Definition if_result (result : option string) (otherwise : M string)
  : M string :=
  match result with
  | Some s => if truthy s then ret s else otherwise
  | None => otherwise
  end.

Definition generate_conclusion (w : world) (metrics : Metrics)
  (risk_level : RiskLevel) (anomalies : list string) : M string :=
  let rule_based :=
    (* Fallback to rule-based generation *)
    ret (_generate_rule_based metrics risk_level anomalies) in
  let try_gemini :=
    mbind get (fun self =>
    if truthy (gemini_key self) then
      mbind (generate_conclusion_gemini w metrics risk_level anomalies)
            (fun result => if_result result rule_based)
    else rule_based) in
  (* Try OpenAI first *)
  mbind get (fun self =>
  if truthy (openai_key self) then
    mbind (generate_conclusion_openai w metrics risk_level anomalies)
          (fun result => if_result result try_gemini)
  else try_gemini).

End LLMService.

(** ** backend/routers/images.py: [analyze_thermal_colors] *)

Module Images.

(** A pixel of the RGB array, each channel in 0..255. *)
Record rgb := RGB { red : Z; green : Z; blue : Z }.

(** [img_array]: the rows of the array of shape [(h, w, 3)]. *)
Definition image := list (list rgb).

Definition height (img : image) : nat := List.length img.
Definition width (img : image) : nat :=
  match img with [] => 0%nat | row :: _ => List.length row end.

(** The inner dictionary ["color_data"] and the returned dictionary. *)
Record color_data_t := {
  zones_analyzed : Z;
  method : string;
  error : option string     (* the key is present on the fallback path only *)
}.

Record analysis := {
  temperatures : list float;
  color_data : color_data_t
}.

(** [img_array[r0:r1, c0:c1]], its pixels row after row. *)
Definition zone_pixels (img : image) (r0 r1 c0 c1 : nat) : list rgb :=
  List.concat (map (slice c0 c1) (slice r0 r1 img)).

(** One channel of [zone.mean(axis=(0, 1))]: the sum of the 8-bit values,
    exact in binary64, divided by their number; numpy gives NaN for an
    empty zone. *)
Definition channel_mean (ch : rgb -> Z) (zone : list rgb) : float :=
  fdiv (of_Z (fold_left Z.add (map ch zone) 0)) (of_Z (py_len zone)).

(** The body of the two loops for one zone, from the mean colour. *)
Definition zone_temp (r g : float) : float :=
  (* Map color to temperature *)
  let temp := fadd (dec 340 1) (fmul (fdiv r (dec 2550 1)) (dec 50 1)) in
  (* Adjust for green/yellow (moderate heat) *)
  let temp := if fgt g (fmul r (dec 8 1)) then fsub temp (dec 5 1) else temp in
  np_round temp 1.

Definition rgb_mapping (img_array : image) : analysis :=
  let h := height img_array in
  let w := width img_array in
  let zone_h := (h / 2)%nat in
  let zone_w := (w / 4)%nat in
  let temps :=
    flat_map (fun row =>
      map (fun col =>
             let zone := zone_pixels img_array
                           (row * zone_h) ((row + 1) * zone_h)
                           (col * zone_w) ((col + 1) * zone_w) in
             let r := channel_mean red zone in
             let g := channel_mean green zone in
             zone_temp r g)
          (seq 0 4))
      (seq 0 2) in
  {| temperatures := temps;
     color_data := {| zones_analyzed := 8;
                      method := "rgb_mapping";
                      error := None |} |}.

(** The [except] branch; [random i] is the [i]-th value drawn from
    [random.random()], a float in [[0.0, 1.0)]. *)
Definition simulated (random : nat -> float) (e : exn) : analysis :=
  {| temperatures :=
       map (fun i => py_round (fadd (dec 360 1) (fmul (random i) (dec 15 1))) 1)
           (seq 0 8);
     color_data := {| zones_analyzed := 8;
                      method := "simulated";
                      error := Some (exn_str e) |} |}.

(** [opened] is the outcome of the imports and of
    [Image.open(image_path).convert('RGB')] with [np.array]: the decoded
    array, or the exception raised on the way.  The steps after decoding
    do not raise. *)
Definition analyze_thermal_colors (opened : result image)
  (random : nat -> float) : analysis :=
  match (img_array <- opened ;; Ok (rgb_mapping img_array)) with
  | Ok r => r
  | Raise e => simulated random e
  end.

(** The mapping as the specification words it: the correction applies
    when green is at least 0.8 times red, and the method tag is
    "color-mapping". *)
Definition spec_zone_temp (r g : float) : float :=
  let temp := fadd (dec 340 1) (fmul (fdiv r (dec 2550 1)) (dec 50 1)) in
  let temp := if fge g (fmul (dec 8 1) r) then fsub temp (dec 5 1) else temp in
  np_round temp 1.

Definition spec_method : string := "color-mapping".

End Images.

(** ** telegram_bot/bot.py *)

Module Bot.

(** [d.get(key, default)] on a dictionary of strings given by its items. *)
Fixpoint dict_get (d : list (string * string)) (key default : string) : string :=
  match d with
  | [] => default
  | (k, v) :: d' => if String.eqb k key then v else dict_get d' key default
  end.

Definition get_risk_emoji (risk_level : string) : string :=
  dict_get [ ("NORMAL", "✅"); ("ELEVATED", "⚠️"); ("HIGH", "🔴") ]
           risk_level "❓".

End Bot.

(** ** The quantities the specification names *)

Module Spec.

(** The mean of a list of readings: their sum over their number. *)
Definition mean (impl : sum_impl) (xs : list float) : float :=
  fdiv (py_sum impl xs) (of_Z (Z.of_nat (List.length xs))).

(** [m] is a greatest (least) element of [xs]. *)
Definition is_max (m : float) (xs : list float) : Prop :=
  In m xs /\ forall x, In x xs -> fle x m = true.
Definition is_min (m : float) (xs : list float) : Prop :=
  In m xs /\ forall x, In x xs -> fle m x = true.

(** A reading: eight finite, well-formed numbers. *)
Definition finite_float (x : float) : Prop :=
  valid x = true /\ is_finite x = true.
Definition reading (temps : list float) : Prop :=
  List.length temps = 8%nat /\ Forall finite_float temps.

(** The deviation of a zone from the flat mean of the reading, and the
    zones it marks: those whose deviation is strictly above 0.8. *)
Definition deviation (impl : sum_impl) (temps : list float) (temp : float) : float :=
  fsub temp (mean impl temps).



End Spec.

(** ** Texts *)

Module Text.

(** [t] occurs in [s]. *)
Definition occurs_in (t s : string) : Prop :=
  exists pre post : string, s = pre ++ t ++ post.

(** The bullet list of the descriptions, one line each. *)
Fixpoint bullets (anomalies : list string) : string :=
  match anomalies with
  | [] => ""
  | anomaly :: rest => "• " ++ anomaly ++ nl ++ bullets rest
  end.

(** The words by which a text says that the system does not replace a
    consultation. *)
Definition disclaimer : string := "не заменяет".

End Text.

(** ** Sample inputs *)

Module Sample.

(** The first scenario of the specification. *)
Definition reading_normal : list float :=
  map (fun n => dec n 1) [364; 365; 363; 364; 368; 370; 369; 367].

(** Four zones at 36.0 and four at 38.5. *)
Definition reading_high : list float :=
  map (fun n => dec n 1) [360; 360; 360; 360; 385; 385; 385; 385].

(** A reading whose exact mean, 36.725, lies halfway between two
    numbers of two decimals. *)
Definition reading_halfway : list float :=
  map (fun n => dec n 1) [362; 369; 364; 356; 380; 372; 374; 361].

(** A reading whose side means round to 37.25 and 36.78. *)
Definition reading_sides : list float :=
  map (fun n => dec n 1) [379; 371; 372; 368; 357; 381; 372; 361].

(** All zones at 37.6: the metrics and what [classify_risk] gives. *)
Definition metrics_warm : Metrics :=
  {| avg_left := dec 376 1; avg_right := dec 376 1; avg_total := dec 376 1;
     asymmetry := pzero; max_temp := dec 376 1; min_temp := dec 376 1 |}.

Definition anomalies_warm : list string :=
  snd (AnalyzerService.classify_risk (asymmetry metrics_warm) (max_temp metrics_warm)).

End Sample.

(** ** Provider outcomes *)

Module Providers.
Import LLMService.

(** The handle [_get_openai_client] ends with, when it raises nothing. *)
Definition openai_handle (w : world) (self : t) : result (option client) :=
  match openai_client self with
  | Some c => Ok (Some c)
  | None =>
      if truthy (openai_key self) then
        match openai_init w (openai_key self) with
        | Ok c => Ok (Some c)
        | Raise e => if is_ImportError e then Ok None else Raise e
        end
      else Ok None
  end.

Definition gemini_handle (w : world) (self : t) : result (option client) :=
  match gemini_model self with
  | Some c => Ok (Some c)
  | None =>
      if truthy (gemini_key self) then
        match gemini_init w (gemini_key self) with
        | Ok c => Ok (Some c)
        | Raise e => if is_ImportError e then Ok None else Raise e
        end
      else Ok None
  end.

(** The clients can be built: building one raises nothing, or only
    [ImportError]. *)
Definition clients_build (w : world) (self : t) : Prop :=
  returns (openai_handle w self) = true /\ returns (gemini_handle w self) = true.

(** A provider call gives no text: it raises an exception deriving from
    [Exception], or its answer is [None] or empty. *)
Definition no_text (attempt : outcome (option string)) : Prop :=
  match attempt with
  | Returns (Ok r) => truthy_opt r = false
  | Returns (Raise _) => True
  | Escapes _ => False
  end.

(** A provider gives no text for a prompt: its key is missing, its package
    is missing, or its call gives none. *)
Definition openai_gives_nothing (w : world) (self : t) (prompt : string) : Prop :=
  truthy (openai_key self) = false \/
  openai_handle w self = Ok None \/
  exists c, openai_handle w self = Ok (Some c) /\ no_text (openai_chat w c prompt).

Definition gemini_gives_nothing (w : world) (self : t) (prompt : string) : Prop :=
  truthy (gemini_key self) = false \/
  gemini_handle w self = Ok None \/
  exists c, gemini_handle w self = Ok (Some c) /\ no_text (gemini_generate w c prompt).

(** Every exception of the provider calls derives from [Exception]: no
    call for the prompt ends with an exception that [except Exception]
    lets through. *)
Definition calls_caught (w : world) (prompt : string) : Prop :=
  forall (c : client) (name : string),
    openai_chat w c prompt <> Escapes name /\
    gemini_generate w c prompt <> Escapes name.

(** What one guarded call hands to [generate_conclusion]: the text, the
    next stage when there is none, or the exception that escapes. *)
Definition after_call (attempt : outcome (option string))
  (next : outcome string) : outcome string :=
  match attempt with
  | Returns (Ok (Some s)) => if truthy s then Returns (Ok s) else next
  | Returns (Ok None) => next
  | Returns (Raise _) => next
  | Escapes name => Escapes name
  end.

(** What the Gemini stage and the fallback return. *)
Definition gemini_stage (w : world) (metrics : Metrics) (risk_level : RiskLevel)
  (anomalies : list string) (self : t) : outcome string :=
  let rule_based := Returns (Ok (_generate_rule_based metrics risk_level anomalies)) in
  if truthy (gemini_key self) then
    match gemini_handle w self with
    | Ok (Some c) =>
        after_call (gemini_generate w c (_build_prompt metrics risk_level anomalies))
                   rule_based
    | Ok None => rule_based
    | Raise e => Returns (Raise e)
    end
  else rule_based.

(** A service configured for OpenAI only, and a world in which the
    constructor of the OpenAI client raises a [TypeError], as it does when
    the installed HTTP library no longer accepts one of its arguments. *)
Definition service_openai : t :=
  {| openai_key := "sk-test"; gemini_key := "";
     openai_client := None; gemini_model := None |}.

Definition constructor_error : exn :=
  Exn OtherException "Client.__init__() got an unexpected keyword argument 'proxies'".

Definition world_broken_constructor : world :=
  {| openai_init := fun _ => Raise constructor_error;
     openai_chat := fun _ _ => Ok None;
     gemini_init := fun _ => Raise (Exn ImportError "No module named 'google'");
     gemini_generate := fun _ _ => Ok None |}.

(** A world in which both packages are installed and both calls fail. *)
Definition world_calls_fail : world :=
  {| openai_init := fun key => Ok (Client key);
     openai_chat := fun _ _ => Raise (Exn OtherException "Connection error.");
     gemini_init := fun key => Ok (Client key);
     gemini_generate := fun _ _ => Ok (Some "") |}.

Definition service_both : t :=
  {| openai_key := "sk-test"; gemini_key := "g-test";
     openai_client := None; gemini_model := None |}.

(** A world in which the OpenAI call fails and the task is cancelled
    while the Gemini call is awaited. *)
Definition world_cancelled : world :=
  {| openai_init := fun key => Ok (Client key);
     openai_chat := fun _ _ => Raise (Exn OtherException "Connection error.");
     gemini_init := fun key => Ok (Client key);
     gemini_generate := fun _ _ => Escapes "CancelledError" |}.

End Providers.

(** ** Rounding *)

(** [r] is [mrs] shifted right by [k] bits: the mantissa is divided by
    [2^k], and nothing was lost when the mantissa was a multiple of [2^k]
    and nothing had been lost before. *)
Definition shifted (k : Z) (mrs r : shr_record) : Prop :=
  shr_m r = shr_m mrs / 2 ^ k /\
  (shr_m mrs mod 2 ^ k = 0 -> shr_r mrs = false -> shr_s mrs = false ->
   shr_r r = false /\ shr_s r = false).

(** [x] is zero (when [lo = 0]) or a positive number between [lo * 2^ec]
    and [hi * 2^ec], of exponent at most [ec]. *)
Definition between (lo hi ec : Z) (x : float) : Prop :=
  match x with
  | S754_zero s => s = false /\ lo = 0
  | S754_finite s m e =>
      s = false /\ e <= ec /\ lo * 2 ^ (ec - e) <= Z.pos m <= hi * 2 ^ (ec - e)
  | _ => False
  end.

(** ** The grid of the image extractor *)

Module Grid.
Import Images.

(** The pixel at row [y] and column [x]. *)
Definition pixel (img : image) (y x : nat) : rgb :=
  nth x (nth y img []) (RGB 0 0 0).

(** An array: every row has the width of the first. *)
Definition rectangular (img : image) : Prop :=
  Forall (fun row => List.length row = width img) img.

(** The tile at grid position [(row, col)]: the pixels of the rows
    [row * zone_h .. (row + 1) * zone_h - 1] and of the columns
    [col * zone_w .. (col + 1) * zone_w - 1], row after row. *)
Definition tile (img : image) (row col : nat) : list rgb :=
  let zone_h := (height img / 2)%nat in
  let zone_w := (width img / 4)%nat in
  flat_map (fun i => map (fun j => pixel img (row * zone_h + i) (col * zone_w + j))
                         (seq 0 zone_w))
           (seq 0 zone_h).

(** The temperature the code gives to a tile: from the mean red [r] and
    the mean green [g], [34.0 + (r / 255.0) * 5.0], less [0.5] when
    [g > r * 0.8], rounded to one decimal. *)
Definition tile_temp (img : image) (row col : nat) : float :=
  let r := channel_mean red (tile img row col) in
  let g := channel_mean green (tile img row col) in
  let temp := fadd (dec 340 1) (fmul (fdiv r (dec 2550 1)) (dec 50 1)) in
  np_round (if fgt g (fmul r (dec 8 1)) then fsub temp (dec 5 1) else temp) 1.

(** The same with the test of the specification, [g >= 0.8 * r]. *)
Definition spec_tile_temp (img : image) (row col : nat) : float :=
  spec_zone_temp (channel_mean red (tile img row col))
                 (channel_mean green (tile img row col)).

(** The eight grid positions in row-major order. *)
Definition positions : list (nat * nat) :=
  [(0, 0); (0, 1); (0, 2); (0, 3); (1, 0); (1, 1); (1, 2); (1, 3)]%nat.

(** A draw of [random.random()]: a finite number of [[0, 1)]. *)
Definition unit_draw (u : float) : Prop :=
  is_finite u = true /\ (0 <= B2Q u < 1)%Q.

(** A temperature between 36.0 and 37.5, both included. *)
Definition in_36_375 (t : float) : Prop :=
  is_finite t = true /\ (36 <= B2Q t <= 375 # 10)%Q.

(** An image of two rows of four pixels, all of colour (10, 8, 0): in
    each tile the mean green equals 0.8 times the mean red. *)
Definition image_orange : image := repeat (repeat (RGB 10 8 0) 4) 2.

(** The draws all equal to 0.99. *)
Definition draws_099 : nat -> float := fun _ => dec 99 2.

Definition decode_error : exn := Exn OtherException "cannot identify image file".

End Grid.

(** ** The attributes of the conclusion service across a call *)

Module ServiceState.
Import LLMService.

(** What a call leaves in the attributes of the service. *)
Definition kept (self self' : t) : Prop :=
  openai_key self' = openai_key self /\
  gemini_key self' = gemini_key self /\
  (forall c, openai_client self = Some c -> openai_client self' = Some c) /\
  (forall c, gemini_model self = Some c -> gemini_model self' = Some c).

End ServiceState.

(** ** The anomalies in a sentence *)

Module Fallback.

(** The anomalies as a text names them: joined by commas, or the given
    words when there is none. *)
Definition anomaly_text (none : string) (anomalies : list string) : string :=
  match anomalies with
  | [] => none
  | _ => join ", " anomalies
  end.

End Fallback.

(** * Properties *)

(** ** Dyadic numbers *)

Lemma pow2_pos e : (0 < pow2 e)%Q.
Proof. apply Qpower_0_lt. reflexivity. Qed.

Lemma pow2_add a b : (pow2 (a + b) == pow2 a * pow2 b)%Q.
Proof. apply Qpower_plus. discriminate. Qed.

Lemma pow2_nonneg_Z n : 0 <= n -> (pow2 n == inject_Z (2 ^ n))%Q.
Proof.
  intros H. unfold pow2. destruct n as [|p|p]; [reflexivity| |lia].
  simpl. rewrite Z.pow_pos_fold.
  induction p using Pos.peano_ind.
  - reflexivity.
  - rewrite Pos2Z.inj_succ, Z.pow_succ_r by lia.
    rewrite <- Pos.add_1_l, Qpower_plus_positive, inject_Z_mult.
    rewrite IHp by lia. reflexivity.
Qed.

Lemma pow2_split e1 e2 : e1 <= e2 -> (pow2 e2 == inject_Z (2 ^ (e2 - e1)) * pow2 e1)%Q.
Proof.
  intros H. rewrite <- pow2_nonneg_Z by lia. rewrite <- pow2_add.
  replace (e2 - e1 + e1) with e2 by lia. reflexivity.
Qed.

(** Comparison of [a * 2^e1] and [b * 2^e2] on a common exponent. *)
Lemma dy_le a e1 b e2 e : e <= e1 -> e <= e2 ->
  (inject_Z a * pow2 e1 <= inject_Z b * pow2 e2)%Q <->
  a * 2 ^ (e1 - e) <= b * 2 ^ (e2 - e).
Proof.
  intros H1 H2.
  rewrite (pow2_split e e1), (pow2_split e e2) by assumption.
  rewrite !Qmult_assoc, <- !inject_Z_mult.
  pose proof (pow2_pos e) as Hp.
  split; intros H.
  - apply Qmult_le_r in H; [|exact Hp]. now rewrite <- Zle_Qle in H.
  - apply Qmult_le_r; [exact Hp|]. now rewrite <- Zle_Qle.
Qed.

Lemma dy_lt a e1 b e2 e : e <= e1 -> e <= e2 ->
  (inject_Z a * pow2 e1 < inject_Z b * pow2 e2)%Q <->
  a * 2 ^ (e1 - e) < b * 2 ^ (e2 - e).
Proof.
  intros H1 H2.
  rewrite (pow2_split e e1), (pow2_split e e2) by assumption.
  rewrite !Qmult_assoc, <- !inject_Z_mult.
  pose proof (pow2_pos e) as Hp.
  split; intros H.
  - apply Qmult_lt_r in H; [|exact Hp]. now rewrite <- Zlt_Qlt in H.
  - apply Qmult_lt_r; [exact Hp|]. now rewrite <- Zlt_Qlt.
Qed.

(** ** Well-formed binary64 data *)

Lemma digits2_bounds (m : positive) :
  2 ^ (Z.pos (digits2_pos m) - 1) <= Z.pos m < 2 ^ Z.pos (digits2_pos m).
Proof.
  induction m as [m IH|m IH|]; simpl digits2_pos.
  - rewrite Pos2Z.inj_succ. replace (Z.succ (Z.pos (digits2_pos m)) - 1) with (Z.succ (Z.pos (digits2_pos m) - 1)) by lia.
    rewrite !Z.pow_succ_r by lia. lia.
  - rewrite Pos2Z.inj_succ. replace (Z.succ (Z.pos (digits2_pos m)) - 1) with (Z.succ (Z.pos (digits2_pos m) - 1)) by lia.
    rewrite !Z.pow_succ_r by lia. lia.
  - simpl. lia.
Qed.

Lemma pow2_mono_Z a b : 0 <= a <= b -> 2 ^ a <= 2 ^ b.
Proof. intros H. apply Z.pow_le_mono_r; lia. Qed.

Lemma valid_finite_inv s m e :
  valid (S754_finite s m e) = true ->
  -1074 <= e <= 971 /\ Z.pos m < 2 ^ 53 /\ (e = -1074 \/ 2 ^ 52 <= Z.pos m).
Proof.
  unfold valid, valid_binary, bounded, canonical_mantissa, fexp, SpecFloat.emin, prec, emax.
  intros H. apply andb_true_iff in H. destruct H as [H1 H2].
  apply Z.eqb_eq in H1. apply Z.leb_le in H2.
  pose proof (digits2_bounds m) as [Hlo Hhi].
  set (d := Z.pos (digits2_pos m)) in *.
  assert (Hd : 0 < d) by (unfold d; lia).
  split; [lia|].
  split.
  - assert (d <= 53) by lia.
    eapply Z.lt_le_trans; [exact Hhi|]. apply pow2_mono_Z. lia.
  - destruct (Z.eq_dec e (-1074)) as [He|He]; [now left|right].
    assert (d = 53) by lia. replace 52 with (d - 1) by lia. exact Hlo.
Qed.

Lemma B2Q_finite s m e : B2Q (S754_finite s m e) = (inject_Z (Fval s m) * pow2 e)%Q.
Proof. reflexivity. Qed.

Lemma Qcompare_Lt a b : (a < b)%Q -> (a ?= b)%Q = Lt.
Proof. intros H. now apply Qlt_alt. Qed.
Lemma Qcompare_Gt a b : (b < a)%Q -> (a ?= b)%Q = Gt.
Proof. intros H. now apply Qgt_alt. Qed.
Lemma Qcompare_Eq a b : (a == b)%Q -> (a ?= b)%Q = Eq.
Proof. intros H. now apply Qeq_alt. Qed.

Lemma B2Q_pos m e : (0 < B2Q (S754_finite false m e))%Q.
Proof.
  rewrite B2Q_finite. simpl Fval.
  apply Qmult_lt_0_compat; [reflexivity|apply pow2_pos].
Qed.

Lemma B2Q_neg m e : (B2Q (S754_finite true m e) < 0)%Q.
Proof.
  rewrite B2Q_finite. simpl Fval.
  pose proof (pow2_pos e).
  setoid_replace (inject_Z (Z.neg m)) with (- inject_Z (Z.pos m))%Q by reflexivity.
  assert (Ht : (0 < inject_Z (Z.pos m) * pow2 e)%Q) by (apply Qmult_lt_0_compat; [reflexivity|assumption]).
  lra.
Qed.

(** On well-formed data the positive numbers are ordered as their
    (exponent, mantissa) pairs. *)
Lemma canonical_lt s1 m1 e1 s2 m2 e2 :
  valid (S754_finite s1 m1 e1) = true -> valid (S754_finite s2 m2 e2) = true ->
  e1 < e2 ->
  (inject_Z (Z.pos m1) * pow2 e1 < inject_Z (Z.pos m2) * pow2 e2)%Q.
Proof.
  intros V1 V2 He.
  apply valid_finite_inv in V1, V2.
  apply (dy_lt _ _ _ _ e1); [lia|lia|].
  rewrite Z.sub_diag, Z.pow_0_r, Z.mul_1_r.
  destruct V1 as (? & H53 & _).
  destruct V2 as (? & _ & [?|H52]); [lia|].
  assert (Hp : 2 ^ 1 <= 2 ^ (e2 - e1)) by (apply pow2_mono_Z; lia).
  change (2 ^ 1) with 2 in Hp. change (2 ^ 52) with 4503599627370496 in H52.
  change (2 ^ 53) with 9007199254740992 in H53.
  revert Hp. generalize (2 ^ (e2 - e1)). intros P Hp. nia.
Qed.

Lemma Qopp_compare a b : (- a ?= - b)%Q = CompOpp (a ?= b)%Q.
Proof.
  unfold Qcompare. simpl. rewrite !Z.mul_opp_l, Z.compare_opp. apply Z.compare_antisym.
Qed.

Lemma pos_compare_spec m1 e1 m2 e2 :
  valid (S754_finite false m1 e1) = true -> valid (S754_finite false m2 e2) = true ->
  match e1 ?= e2 with
  | Lt => Lt
  | Gt => Gt
  | Eq => Pos.compare_cont Eq m1 m2
  end = (inject_Z (Z.pos m1) * pow2 e1 ?= inject_Z (Z.pos m2) * pow2 e2)%Q.
Proof.
  intros V1 V2. symmetry.
  destruct (Z.compare_spec e1 e2) as [He|He|He].
  - subst e2. change (Pos.compare_cont Eq m1 m2) with (Z.pos m1 ?= Z.pos m2).
    destruct (Z.compare_spec (Z.pos m1) (Z.pos m2)) as [Hm|Hm|Hm].
    + apply Qcompare_Eq. rewrite Hm. reflexivity.
    + apply Qcompare_Lt. apply (dy_lt _ _ _ _ e1); rewrite ?Z.sub_diag; lia.
    + apply Qcompare_Gt. apply (dy_lt _ _ _ _ e1); rewrite ?Z.sub_diag; lia.
  - apply Qcompare_Lt. eapply canonical_lt; eauto.
  - apply Qcompare_Gt. eapply canonical_lt; eauto.
Qed.

Lemma SFcompare_spec x y :
  valid x = true -> valid y = true -> is_finite x = true -> is_finite y = true ->
  SFcompare x y = Some (B2Q x ?= B2Q y)%Q.
Proof.
  intros Vx Vy Fx Fy.
  destruct x as [sx|sx| |sx mx ex]; try discriminate;
  destruct y as [sy|sy| |sy my ey]; try discriminate.
  - reflexivity.
  - destruct sy; simpl SFcompare; f_equal; symmetry.
    + apply Qcompare_Gt, B2Q_neg.
    + apply Qcompare_Lt, B2Q_pos.
  - destruct sx; simpl SFcompare; f_equal; symmetry.
    + apply Qcompare_Lt, B2Q_neg.
    + apply Qcompare_Gt, B2Q_pos.
  - destruct sx, sy; simpl SFcompare; f_equal.
    + rewrite !B2Q_finite. simpl Fval.
      change (inject_Z (Z.neg mx)) with (- inject_Z (Z.pos mx))%Q.
      change (inject_Z (Z.neg my)) with (- inject_Z (Z.pos my))%Q.
      assert (E : forall a b c d, (- a * b ?= - c * d)%Q = (- (a * b) ?= - (c * d))%Q).
      { intros. apply Qcompare_comp; ring. }
      rewrite E, Qopp_compare, <- pos_compare_spec by assumption.
      destruct (ex ?= ey); reflexivity.
    + symmetry. apply Qcompare_Lt. eapply Qlt_trans; [apply B2Q_neg|apply B2Q_pos].
    + symmetry. apply Qcompare_Gt. eapply Qlt_trans; [apply B2Q_neg|apply B2Q_pos].
    + now apply pos_compare_spec.
Qed.

Lemma fle_spec x y :
  valid x = true -> valid y = true -> is_finite x = true -> is_finite y = true ->
  fle x y = true <-> (B2Q x <= B2Q y)%Q.
Proof.
  intros. unfold fle, SFleb. rewrite SFcompare_spec by assumption.
  rewrite Qle_alt. destruct (B2Q x ?= B2Q y)%Q; split; congruence.
Qed.

Lemma flt_spec x y :
  valid x = true -> valid y = true -> is_finite x = true -> is_finite y = true ->
  flt x y = true <-> (B2Q x < B2Q y)%Q.
Proof.
  intros. unfold flt, SFltb. rewrite SFcompare_spec by assumption.
  rewrite Qlt_alt. destruct (B2Q x ?= B2Q y)%Q; split; congruence.
Qed.

(** ** Risk classification *)

Lemma fge_spec x c :
  valid x = true -> is_finite x = true -> valid c = true -> is_finite c = true ->
  fge x c = true <-> (B2Q c <= B2Q x)%Q.
Proof. intros. unfold fge. now apply (fle_spec c x). Qed.

Lemma ASYMMETRY_NORMAL_value : (B2Q settings.ASYMMETRY_NORMAL == 1 # 2)%Q.
Proof. vm_compute. reflexivity. Qed.
Lemma ASYMMETRY_ELEVATED_value : (B2Q settings.ASYMMETRY_ELEVATED == 1)%Q.
Proof. vm_compute. reflexivity. Qed.
Lemma TEMP_NORMAL_MAX_value : (B2Q settings.TEMP_NORMAL_MAX == 375 # 10)%Q.
Proof. vm_compute. reflexivity. Qed.
Lemma TEMP_ELEVATED_MAX_value : (B2Q settings.TEMP_ELEVATED_MAX == 38)%Q.
Proof. vm_compute. reflexivity. Qed.

(** The four comparisons of [classify_risk] read on exact values. *)
Lemma threshold_tests (asymmetry max_temp : float) :
  valid asymmetry = true -> is_finite asymmetry = true ->
  valid max_temp = true -> is_finite max_temp = true ->
  (fge asymmetry settings.ASYMMETRY_ELEVATED = true <-> (1 <= B2Q asymmetry)%Q) /\
  (fge asymmetry settings.ASYMMETRY_NORMAL = true <-> (1 # 2 <= B2Q asymmetry)%Q) /\
  (fge max_temp settings.TEMP_ELEVATED_MAX = true <-> (38 <= B2Q max_temp)%Q) /\
  (fge max_temp settings.TEMP_NORMAL_MAX = true <-> (375 # 10 <= B2Q max_temp)%Q).
Proof.
  intros Va Fa Vt Ft.
  rewrite <- ASYMMETRY_ELEVATED_value, <- ASYMMETRY_NORMAL_value,
    <- TEMP_ELEVATED_MAX_value, <- TEMP_NORMAL_MAX_value.
  repeat split; try (apply fge_spec; auto; reflexivity).
  all: intros H; apply fge_spec in H; auto.
Qed.

(** The level in terms of the four tests. *)
Lemma classify_risk_level_bool (asymmetry max_temp : float) :
  let level := fst (AnalyzerService.classify_risk asymmetry max_temp) in
  (level = HIGH <->
     fge asymmetry settings.ASYMMETRY_ELEVATED = true
     \/ fge max_temp settings.TEMP_ELEVATED_MAX = true) /\
  (level = ELEVATED <->
     (fge asymmetry settings.ASYMMETRY_ELEVATED = false
      /\ fge max_temp settings.TEMP_ELEVATED_MAX = false)
     /\ (fge asymmetry settings.ASYMMETRY_NORMAL = true
         \/ fge max_temp settings.TEMP_NORMAL_MAX = true)) /\
  (level = NORMAL <->
     fge asymmetry settings.ASYMMETRY_ELEVATED = false
     /\ fge asymmetry settings.ASYMMETRY_NORMAL = false
     /\ fge max_temp settings.TEMP_ELEVATED_MAX = false
     /\ fge max_temp settings.TEMP_NORMAL_MAX = false).
Proof.
  unfold AnalyzerService.classify_risk. cbn [fst].
  destruct (fge asymmetry settings.ASYMMETRY_ELEVATED),
    (fge asymmetry settings.ASYMMETRY_NORMAL),
    (fge max_temp settings.TEMP_ELEVATED_MAX),
    (fge max_temp settings.TEMP_NORMAL_MAX); cbn [orb];
    intuition congruence.
Qed.

(** C1. For finite [asymmetry] and [max_temp], [classify_risk] returns HIGH
    exactly when [asymmetry >= 1.0] or [max_temp >= 38.0], ELEVATED exactly
    when that fails and [asymmetry >= 0.5] or [max_temp >= 37.5], and NORMAL
    otherwise.  The four thresholds are inclusive: [asymmetry] at exactly
    1.0, or [max_temp] at exactly 38.0, gives HIGH whatever the other axis
    is; [asymmetry] at exactly 0.5, or [max_temp] at exactly 37.5, gives at
    least ELEVATED whatever the other axis is, and ELEVATED itself unless
    the other axis reaches its HIGH threshold. *)
Theorem classify_risk_thresholds (asymmetry max_temp : float) :
  valid asymmetry = true -> is_finite asymmetry = true ->
  valid max_temp = true -> is_finite max_temp = true ->
  let level := fst (AnalyzerService.classify_risk asymmetry max_temp) in
  let a := B2Q asymmetry in
  let t := B2Q max_temp in
  (level = HIGH <-> (1 <= a \/ 38 <= t)%Q) /\
  (level = ELEVATED <->
     (~ (1 <= a \/ 38 <= t) /\ (1 # 2 <= a \/ 375 # 10 <= t))%Q) /\
  (level = NORMAL <-> (a < 1 # 2 /\ t < 375 # 10)%Q) /\
  ((a == 1)%Q -> level = HIGH) /\
  ((t == 38)%Q -> level = HIGH) /\
  ((a == 1 # 2)%Q -> level_le ELEVATED level) /\
  ((t == 375 # 10)%Q -> level_le ELEVATED level) /\
  ((a == 1 # 2)%Q -> (t < 38)%Q -> level = ELEVATED) /\
  ((t == 375 # 10)%Q -> (a < 1)%Q -> level = ELEVATED).
Proof.
  intros Va Fa Vt Ft level a t.
  destruct (threshold_tests asymmetry max_temp Va Fa Vt Ft) as (H1 & H2 & H3 & H4).
  fold a in H1, H2. fold t in H3, H4.
  destruct (classify_risk_level_bool asymmetry max_temp) as (LH & LE & LN).
  fold level in LH, LE, LN.
  rewrite H1, H3 in LH.
  rewrite H2, H4 in LE. rewrite <- !not_true_iff_false, H1, H3 in LE.
  rewrite <- !not_true_iff_false, H1, H2, H3, H4 in LN.
  assert (HH : level = HIGH <-> (1 <= a)%Q \/ (38 <= t)%Q) by exact LH.
  assert (HE : level = ELEVATED <->
               ~ ((1 <= a)%Q \/ (38 <= t)%Q) /\ ((1 # 2 <= a)%Q \/ (375 # 10 <= t)%Q)).
  { rewrite LE. tauto. }
  assert (HN : level = NORMAL <-> (a < 1 # 2)%Q /\ (t < 375 # 10)%Q).
  { rewrite LN. split.
    - intros (_ & N2 & _ & N4). split; apply Qnot_le_lt; assumption.
    - intros [L2 L4]. repeat split; apply Qlt_not_le; lra. }
  split; [exact HH|]. split; [exact HE|]. split; [exact HN|].
  split; [intros E; apply HH; left; lra|].
  split; [intros E; apply HH; right; lra|].
  assert (above : level <> NORMAL -> level_le ELEVATED level).
  { unfold level_le. destruct level; cbn; [congruence|lia|lia]. }
  split; [intros E; apply above; rewrite HN; intros [? ?]; lra|].
  split; [intros E; apply above; rewrite HN; intros [? ?]; lra|].
  split; intros E L; apply HE; (split; [intros [?|?]; lra|]); [left|right]; lra.
Qed.

Lemma classify_risk_thresholds_witness :
  valid (dec 5 1) = true /\ is_finite (dec 5 1) = true /\
  valid (dec 370 1) = true /\ is_finite (dec 370 1) = true /\
  fst (AnalyzerService.classify_risk (dec 5 1) (dec 370 1)) = ELEVATED.
Proof.
  do 4 (split; [reflexivity|]).
  destruct (classify_risk_thresholds (dec 5 1) (dec 370 1) eq_refl eq_refl eq_refl eq_refl)
    as (_ & _ & _ & _ & _ & _ & _ & H & _).
  apply H; vm_compute; reflexivity.
Defined.

(** C7. With [asymmetry] fixed, [max_temp1 <= max_temp2] gives a level for
    [max_temp1] that is at most the level for [max_temp2] in the order
    NORMAL < ELEVATED < HIGH; and the same with [max_temp] fixed and
    [asymmetry] growing. *)
Theorem classify_risk_monotone :
  (forall asymmetry max_temp1 max_temp2 : float,
      valid max_temp1 = true -> is_finite max_temp1 = true ->
      valid max_temp2 = true -> is_finite max_temp2 = true ->
      fle max_temp1 max_temp2 = true ->
      level_le (fst (AnalyzerService.classify_risk asymmetry max_temp1))
               (fst (AnalyzerService.classify_risk asymmetry max_temp2))) /\
  (forall max_temp asymmetry1 asymmetry2 : float,
      valid asymmetry1 = true -> is_finite asymmetry1 = true ->
      valid asymmetry2 = true -> is_finite asymmetry2 = true ->
      fle asymmetry1 asymmetry2 = true ->
      level_le (fst (AnalyzerService.classify_risk asymmetry1 max_temp))
               (fst (AnalyzerService.classify_risk asymmetry2 max_temp))).
Proof.
  assert (mono : forall c x y,
             valid c = true -> is_finite c = true ->
             valid x = true -> is_finite x = true ->
             valid y = true -> is_finite y = true ->
             fle x y = true -> fge x c = true -> fge y c = true).
  { intros c x y Vc Fc Vx Fx Vy Fy Hxy Hxc.
    apply fle_spec in Hxy; auto. apply fge_spec in Hxc; auto.
    apply fge_spec; auto. eapply Qle_trans; eauto. }
  split.
  - intros a t1 t2 V1 F1 V2 F2 Hle.
    pose proof (mono settings.TEMP_ELEVATED_MAX t1 t2 eq_refl eq_refl V1 F1 V2 F2 Hle) as M1.
    pose proof (mono settings.TEMP_NORMAL_MAX t1 t2 eq_refl eq_refl V1 F1 V2 F2 Hle) as M2.
    unfold AnalyzerService.classify_risk, level_le. cbn [fst].
    destruct (fge a settings.ASYMMETRY_ELEVATED), (fge a settings.ASYMMETRY_NORMAL),
      (fge t1 settings.TEMP_ELEVATED_MAX), (fge t1 settings.TEMP_NORMAL_MAX);
      try rewrite (M1 eq_refl); try rewrite (M2 eq_refl);
      destruct (fge t2 settings.TEMP_ELEVATED_MAX), (fge t2 settings.TEMP_NORMAL_MAX);
      cbn [orb level_rank]; lia.
  - intros t a1 a2 V1 F1 V2 F2 Hle.
    pose proof (mono settings.ASYMMETRY_ELEVATED a1 a2 eq_refl eq_refl V1 F1 V2 F2 Hle) as M1.
    pose proof (mono settings.ASYMMETRY_NORMAL a1 a2 eq_refl eq_refl V1 F1 V2 F2 Hle) as M2.
    unfold AnalyzerService.classify_risk, level_le. cbn [fst].
    destruct (fge t settings.TEMP_ELEVATED_MAX), (fge t settings.TEMP_NORMAL_MAX),
      (fge a1 settings.ASYMMETRY_ELEVATED), (fge a1 settings.ASYMMETRY_NORMAL);
      try rewrite (M1 eq_refl); try rewrite (M2 eq_refl);
      destruct (fge a2 settings.ASYMMETRY_ELEVATED), (fge a2 settings.ASYMMETRY_NORMAL);
      cbn [orb level_rank]; lia.
Qed.

Lemma classify_risk_monotone_witness :
  level_le (fst (AnalyzerService.classify_risk (dec 2 1) (dec 370 1)))
           (fst (AnalyzerService.classify_risk (dec 2 1) (dec 376 1))) /\
  level_le (fst (AnalyzerService.classify_risk (dec 2 1) (dec 370 1)))
           (fst (AnalyzerService.classify_risk (dec 12 1) (dec 370 1))).
Proof.
  split.
  - apply (proj1 classify_risk_monotone (dec 2 1) (dec 370 1) (dec 376 1)); reflexivity.
  - apply (proj2 classify_risk_monotone (dec 370 1) (dec 2 1) (dec 12 1)); reflexivity.
Defined.

(** C10. [classify_risk] returns NORMAL exactly when its list of
    descriptions is empty; the list has at most two entries, at most one
    for the asymmetry followed by at most one for the temperature. *)
Theorem classify_risk_anomalies (asymmetry max_temp : float) :
  let level := fst (AnalyzerService.classify_risk asymmetry max_temp) in
  let anomalies := snd (AnalyzerService.classify_risk asymmetry max_temp) in
  (level = NORMAL <-> anomalies = []) /\
  (List.length anomalies <= 2)%nat /\
  exists la lt : list string,
    anomalies = (la ++ lt)%list /\
    (la = [] \/ la = [AnalyzerService.significant_asymmetry asymmetry]
     \/ la = [AnalyzerService.moderate_asymmetry asymmetry]) /\
    (lt = [] \/ lt = [AnalyzerService.elevated_temperature max_temp]
     \/ lt = [AnalyzerService.above_normal_temperature max_temp]) /\
    (la = [] <-> fge asymmetry settings.ASYMMETRY_ELEVATED = false
                 /\ fge asymmetry settings.ASYMMETRY_NORMAL = false) /\
    (lt = [] <-> fge max_temp settings.TEMP_ELEVATED_MAX = false
                 /\ fge max_temp settings.TEMP_NORMAL_MAX = false).
Proof.
  unfold AnalyzerService.classify_risk. cbn [fst snd].
  destruct (fge asymmetry settings.ASYMMETRY_ELEVATED),
    (fge asymmetry settings.ASYMMETRY_NORMAL),
    (fge max_temp settings.TEMP_ELEVATED_MAX),
    (fge max_temp settings.TEMP_NORMAL_MAX); cbn [orb app List.length].
  all: split; [split; intros H; discriminate || reflexivity|].
  all: split; [lia|].
  all: match goal with
       | |- exists la lt, [?x; ?y] = _ /\ _ => exists [x], [y]
       | |- exists la lt, [?x] = _ /\ _ =>
           first [ exists [x], []; repeat split; auto; try (intros; discriminate);
                   try (intros [? ?]; discriminate); fail
                 | exists [], [x] ]
       | |- exists la lt, [] = _ /\ _ => exists [], []
       end.
  all: repeat split; auto; try (intros; discriminate); try (intros [? ?]; discriminate).
Qed.

(** ** Metrics *)

Lemma fle_refl x : Spec.finite_float x -> fle x x = true.
Proof. intros [V F]. apply fle_spec; auto. apply Qle_refl. Qed.

Lemma fle_trans x y z :
  Spec.finite_float x -> Spec.finite_float y -> Spec.finite_float z ->
  fle x y = true -> fle y z = true -> fle x z = true.
Proof.
  intros [Vx Fx] [Vy Fy] [Vz Fz] H1 H2.
  apply fle_spec in H1, H2; auto. apply fle_spec; auto.
  eapply Qle_trans; eauto.
Qed.

(** Either [y > m] or [y <= m], on finite numbers. *)
Lemma fgt_false_fle y m :
  Spec.finite_float y -> Spec.finite_float m -> fgt y m = false -> fle y m = true.
Proof.
  intros [Vy Fy] [Vm Fm] H. apply fle_spec; auto.
  apply Qnot_lt_le. intros L. apply (flt_spec m y) in L; auto.
  unfold fgt in H. unfold flt in L. congruence.
Qed.

Lemma fgt_true_fle y m :
  Spec.finite_float y -> Spec.finite_float m -> fgt y m = true -> fle m y = true.
Proof.
  intros [Vy Fy] [Vm Fm] H. apply fle_spec; auto.
  apply Qlt_le_weak. apply (flt_spec m y); auto.
Qed.

(** The loop of [max]: the result is an element, above the start value
    and above every element met. *)
Lemma fold_max_spec (xs : list float) (m0 : float) :
  Spec.finite_float m0 -> Forall Spec.finite_float xs ->
  let m := fold_left (fun m y => if fgt y m then y else m) xs m0 in
  Spec.finite_float m /\ (m = m0 \/ In m xs) /\ fle m0 m = true
  /\ forall x, In x xs -> fle x m = true.
Proof.
  revert m0. induction xs as [|y xs IH]; intros m0 F0 Fxs; cbn [fold_left].
  - split; [exact F0|]. split; [now left|]. split; [now apply fle_refl|]. intros x [].
  - inversion Fxs as [|? ? Fy Fxs']; subst.
    destruct (fgt y m0) eqn:E.
    + destruct (IH y Fy Fxs') as (Fm & Hin & Hle & Hall).
      split; [exact Fm|]. split; [right; destruct Hin as [->|Hin]; [now left|now right]|].
      split.
      * eapply fle_trans; [exact F0|exact Fy|exact Fm| |exact Hle].
        now apply fgt_true_fle.
      * intros x [<-|Hx]; [exact Hle|now apply Hall].
    + destruct (IH m0 F0 Fxs') as (Fm & Hin & Hle & Hall).
      split; [exact Fm|]. split; [destruct Hin as [->|Hin]; [now left|right; now right]|].
      split; [exact Hle|].
      intros x [<-|Hx]; [|now apply Hall].
      eapply fle_trans; [exact Fy|exact F0|exact Fm| |exact Hle].
      now apply fgt_false_fle.
Qed.

Lemma fold_min_spec (xs : list float) (m0 : float) :
  Spec.finite_float m0 -> Forall Spec.finite_float xs ->
  let m := fold_left (fun m y => if flt y m then y else m) xs m0 in
  Spec.finite_float m /\ (m = m0 \/ In m xs) /\ fle m m0 = true
  /\ forall x, In x xs -> fle m x = true.
Proof.
  revert m0. induction xs as [|y xs IH]; intros m0 F0 Fxs; cbn [fold_left].
  - split; [exact F0|]. split; [now left|]. split; [now apply fle_refl|]. intros x [].
  - inversion Fxs as [|? ? Fy Fxs']; subst.
    destruct (flt y m0) eqn:E.
    + destruct (IH y Fy Fxs') as (Fm & Hin & Hle & Hall).
      split; [exact Fm|]. split; [right; destruct Hin as [->|Hin]; [now left|now right]|].
      split.
      * eapply fle_trans; [exact Fm|exact Fy|exact F0|exact Hle|].
        apply (fgt_true_fle m0 y); assumption.
      * intros x [<-|Hx]; [exact Hle|now apply Hall].
    + destruct (IH m0 F0 Fxs') as (Fm & Hin & Hle & Hall).
      split; [exact Fm|]. split; [destruct Hin as [->|Hin]; [now left|right; now right]|].
      split; [exact Hle|].
      intros x [<-|Hx]; [|now apply Hall].
      eapply fle_trans; [exact Fm|exact F0|exact Fy|exact Hle|].
      apply (fgt_false_fle m0 y); assumption.
Qed.

Lemma py_max_spec (xs : list float) :
  xs <> [] -> Forall Spec.finite_float xs ->
  exists m, py_max xs = Ok m /\ Spec.is_max m xs.
Proof.
  destruct xs as [|x xs]; [congruence|]. intros _ F.
  inversion F as [|? ? Fx Fxs]; subst.
  destruct (fold_max_spec xs x Fx Fxs) as (Fm & Hin & Hle & Hall).
  eexists. split; [reflexivity|]. split.
  - destruct Hin as [->|Hin]; [now left|now right].
  - intros y [<-|Hy]; [exact Hle|now apply Hall].
Qed.

Lemma py_min_spec (xs : list float) :
  xs <> [] -> Forall Spec.finite_float xs ->
  exists m, py_min xs = Ok m /\ Spec.is_min m xs.
Proof.
  destruct xs as [|x xs]; [congruence|]. intros _ F.
  inversion F as [|? ? Fx Fxs]; subst.
  destruct (fold_min_spec xs x Fx Fxs) as (Fm & Hin & Hle & Hall).
  eexists. split; [reflexivity|]. split.
  - destruct Hin as [->|Hin]; [now left|now right].
  - intros y [<-|Hy]; [exact Hle|now apply Hall].
Qed.

(** A list of eight elements, element by element. *)
Lemma length_8_inv {A} (l : list A) :
  List.length l = 8%nat ->
  exists a b c d e f g h, l = [a; b; c; d; e; f; g; h].
Proof.
  intros H.
  do 8 (destruct l as [|? l]; [discriminate|]).
  destruct l; [|discriminate]. repeat eexists.
Qed.

(** C2. On a reading of eight finite numbers [calculate_metrics] raises
    nothing and returns, each rounded to two decimals: the mean of the
    first four, the mean of the last four, the half-sum of these two
    means, the absolute value of their difference, a greatest and a least
    element of the reading. *)
Theorem calculate_metrics_spec (impl : sum_impl) (r : list float) :
  Spec.reading r ->
  exists mx mn : float,
    Spec.is_max mx r /\ Spec.is_min mn r /\
    AnalyzerService.calculate_metrics impl r =
      Ok {| avg_left := py_round (Spec.mean impl (firstn 4 r)) 2;
            avg_right := py_round (Spec.mean impl (skipn 4 r)) 2;
            avg_total :=
              py_round (fdiv (fadd (Spec.mean impl (firstn 4 r))
                                   (Spec.mean impl (skipn 4 r))) (of_Z 2)) 2;
            asymmetry :=
              py_round (fabs (fsub (Spec.mean impl (firstn 4 r))
                                   (Spec.mean impl (skipn 4 r)))) 2;
            max_temp := py_round mx 2;
            min_temp := py_round mn 2 |}.
Proof.
  intros [Hlen Hfin].
  destruct (py_max_spec r) as (mx & Emx & Hmx); [intros ->; discriminate|exact Hfin|].
  destruct (py_min_spec r) as (mn & Emn & Hmn); [intros ->; discriminate|exact Hfin|].
  exists mx, mn. split; [exact Hmx|]. split; [exact Hmn|].
  unfold AnalyzerService.calculate_metrics. rewrite Emx, Emn.
  destruct (length_8_inv r Hlen) as (a & b & c & d & e & f & g & h & ->).
  reflexivity.
Qed.

Lemma reading_normal_ok : Spec.reading Sample.reading_normal.
Proof.
  split; [reflexivity|].
  repeat (apply Forall_cons; [split; reflexivity|]). apply Forall_nil.
Qed.

Lemma calculate_metrics_spec_witness :
  Spec.reading Sample.reading_normal /\
  exists m, AnalyzerService.calculate_metrics NaiveSum Sample.reading_normal = Ok m.
Proof.
  split; [exact reading_normal_ok|].
  destruct (calculate_metrics_spec NaiveSum Sample.reading_normal reading_normal_ok)
    as (mx & mn & _ & _ & E).
  eexists. exact E.
Defined.

(** C8, as the code has it.  [avg_total] is the half-sum of the two side
    means, rounded to two decimals, where the side means are the unrounded
    locals of the function and not the rounded [avg_left] and [avg_right]
    it returns.  It is not the flat mean of the eight values either: on the
    reading 36.2, 36.9, 36.4, 35.6, 38.0, 37.2, 37.4, 36.1 it is 36.72 and
    the rounded flat mean is 36.73. *)
Theorem avg_total_of_side_means (impl : sum_impl) :
  (forall r : list float,
      List.length r = 8%nat ->
      exists m, AnalyzerService.calculate_metrics impl r = Ok m /\
                avg_total m =
                  py_round (fdiv (fadd (Spec.mean impl (firstn 4 r))
                                       (Spec.mean impl (skipn 4 r))) (of_Z 2)) 2) /\
  (exists r : list float,
      Spec.reading r /\
      exists m, AnalyzerService.calculate_metrics impl r = Ok m /\
                avg_total m <> py_round (Spec.mean impl r) 2).
Proof.
  split.
  - intros r Hlen.
    destruct (length_8_inv r Hlen) as (a & b & c & d & e & f & g & h & ->).
    eexists. split; reflexivity.
  - exists Sample.reading_halfway. split.
    + split; [reflexivity|].
      repeat (apply Forall_cons; [split; reflexivity|]). apply Forall_nil.
    + destruct impl; (eexists; split; [vm_compute; reflexivity|vm_compute; discriminate]).
Qed.

Lemma avg_total_of_side_means_witness :
  exists m, AnalyzerService.calculate_metrics NeumaierSum Sample.reading_normal = Ok m /\
            avg_total m =
              py_round (fdiv (fadd (Spec.mean NeumaierSum (firstn 4 Sample.reading_normal))
                                   (Spec.mean NeumaierSum (skipn 4 Sample.reading_normal)))
                             (of_Z 2)) 2.
Proof.
  apply (proj1 (avg_total_of_side_means NeumaierSum) Sample.reading_normal). reflexivity.
Defined.

(** Where C8 fails as stated: on the reading 37.9, 37.1, 37.2, 36.8,
    35.7, 38.1, 37.2, 36.1 the function returns [avg_left = 37.25],
    [avg_right = 36.78] and [avg_total = 37.01], while
    [round((avg_left + avg_right) / 2, 2)] on the returned values is 37.02,
    with either summation of the builtin [sum]. *)
Lemma avg_total_not_of_rounded_fields :
  Spec.reading Sample.reading_sides /\
  Forall (fun impl =>
            exists m,
              AnalyzerService.calculate_metrics impl Sample.reading_sides = Ok m /\
              avg_left m = dec 3725 2 /\ avg_right m = dec 3678 2 /\
              avg_total m = dec 3701 2 /\
              py_round (fdiv (fadd (avg_left m) (avg_right m)) (of_Z 2)) 2 = dec 3702 2 /\
              avg_total m <> py_round (fdiv (fadd (avg_left m) (avg_right m)) (of_Z 2)) 2)
         [NaiveSum; NeumaierSum].
Proof.
  split.
  - split; [reflexivity|].
    repeat (apply Forall_cons; [split; reflexivity|]). apply Forall_nil.
  - repeat (apply Forall_cons;
            [eexists; split; [vm_compute; reflexivity|];
             cbn [avg_left avg_right avg_total];
             repeat split; try (vm_compute; reflexivity); vm_compute; discriminate|]).
    apply Forall_nil.
Qed.

(** ** Anomalous zones *)





Lemma iter_xO_pow2 (m d : positive) :
  Z.pos (Pos.iter xO m d) = Z.pos m * 2 ^ Z.pos d.
Proof.
  induction d as [|d IH] using Pos.peano_ind.
  - cbn. lia.
  - rewrite Pos.iter_succ, Pos2Z.inj_succ, Z.pow_succ_r by lia.
    rewrite Pos2Z.inj_xO, IH. lia.
Qed.

Lemma shl_align_fst (m : positive) (e e' : Z) :
  e' <= e -> Z.pos (fst (shl_align m e e')) = Z.pos m * 2 ^ (e - e').
Proof.
  intros H. unfold shl_align.
  destruct (e' - e) as [|d|d] eqn:E; cbn [fst].
  - replace (e - e') with 0 by lia. lia.
  - lia.
  - rewrite iter_xO_pow2. f_equal. f_equal. lia.
Qed.



Lemma nth_error_zone_names (i : nat) :
  (i < 8)%nat ->
  getitem AnalyzerService.zone_names i = Ok (nth i AnalyzerService.zone_names "").
Proof.
  intros H. unfold getitem.
  do 8 (destruct i as [|i]; [reflexivity|]). lia.
Qed.


Lemma py_truediv_mean (impl : sum_impl) (xs : list float) :
  List.length xs <> 0%nat ->
  py_truediv (py_sum impl xs) (py_len xs) = Ok (Spec.mean impl xs).
Proof.
  intros H. unfold py_truediv, py_len, Spec.mean.
  destruct (Z.eqb_spec (Z.of_nat (List.length xs)) 0) as [E|E]; [lia|reflexivity].
Qed.



(** ** Conclusion texts *)

Lemma append_assoc (a b c : string) : (a ++ b) ++ c = a ++ (b ++ c).
Proof. induction a as [|ch a IH]; cbn; [reflexivity|now rewrite IH]. Qed.

Lemma append_nil_r (a : string) : a ++ "" = a.
Proof. induction a as [|ch a IH]; cbn; [reflexivity|now rewrite IH]. Qed.

Lemma occurs_in_app_l (t a b : string) : Text.occurs_in t a -> Text.occurs_in t (a ++ b).
Proof.
  intros (pre & post & ->). exists pre, (post ++ b).
  now rewrite !append_assoc.
Qed.

Lemma occurs_in_app_r (t a b : string) : Text.occurs_in t b -> Text.occurs_in t (a ++ b).
Proof.
  intros (pre & post & ->). exists (a ++ pre), post.
  now rewrite !append_assoc.
Qed.

Lemma occurs_in_refl (t : string) : Text.occurs_in t t.
Proof. exists "", "". now rewrite append_nil_r. Qed.

(** The three metric lines show the three values. *)
Lemma metric_lines_values (metrics : Metrics) :
  Text.occurs_in (float_repr (avg_left metrics)) (AnalyzerService.metric_lines metrics) /\
  Text.occurs_in (float_repr (avg_right metrics)) (AnalyzerService.metric_lines metrics) /\
  Text.occurs_in (float_repr (asymmetry metrics)) (AnalyzerService.metric_lines metrics).
Proof.
  unfold AnalyzerService.metric_lines. repeat split.
  - apply occurs_in_app_r, occurs_in_app_l, occurs_in_refl.
  - do 5 apply occurs_in_app_r. apply occurs_in_app_l, occurs_in_refl.
  - do 9 apply occurs_in_app_r. apply occurs_in_app_l, occurs_in_refl.
Qed.

(** The loop that appends the bullets, as one concatenation. *)
Lemma add_bullets_spec (anomalies : list string) (conclusion : string) :
  AnalyzerService.add_bullets conclusion anomalies = conclusion ++ Text.bullets anomalies.
Proof.
  unfold AnalyzerService.add_bullets. revert conclusion.
  induction anomalies as [|a l IH]; intros c; cbn [fold_left Text.bullets].
  - now rewrite append_nil_r.
  - rewrite IH, !append_assoc. reflexivity.
Qed.

Lemma bullets_each (anomalies : list string) (a : string) :
  In a anomalies -> Text.occurs_in ("• " ++ a ++ nl) (Text.bullets anomalies).
Proof.
  induction anomalies as [|b l IH]; intros H; [destruct H|].
  cbn [Text.bullets]. destruct H as [->|H].
  - exists "", (Text.bullets l). cbn [append]. now rewrite !append_assoc.
  - replace ("• " ++ b ++ nl ++ Text.bullets l) with (("• " ++ b ++ nl) ++ Text.bullets l)
      by now rewrite !append_assoc.
    apply occurs_in_app_r, IH, H.
Qed.

(** C9, as the code has it.  The three templates show [avg_left],
    [avg_right] and [asymmetry]; the ELEVATED and HIGH texts list every
    description as a bullet, in order; the HIGH text ends with the statement
    that the system is no diagnostic device and does not replace a
    specialist's consultation; the ELEVATED text ends with the
    recommendation to repeat the measurement and to consult a specialist if
    the asymmetry persists, and the NORMAL text with the statement that no
    anomaly was found, neither closing with a disclaimer. *)
Theorem generate_conclusion_templates (metrics : Metrics) (anomalies : list string) :
  let text := fun level => AnalyzerService.generate_conclusion metrics level anomalies in
  (forall level,
      Text.occurs_in (float_repr (avg_left metrics)) (text level) /\
      Text.occurs_in (float_repr (avg_right metrics)) (text level) /\
      Text.occurs_in (float_repr (asymmetry metrics)) (text level)) /\
  (forall level, level = ELEVATED \/ level = HIGH ->
      Text.occurs_in (Text.bullets anomalies) (text level) /\
      forall a, In a anomalies -> Text.occurs_in ("• " ++ a ++ nl) (text level)) /\
  (exists body, text HIGH = body ++ Text.bullets anomalies ++ AnalyzerService.high_closing) /\
  Text.occurs_in "и не заменяет консультацию специалиста." AnalyzerService.high_closing /\
  (exists body, text ELEVATED
                = body ++ Text.bullets anomalies ++ AnalyzerService.elevated_closing) /\
  contains Text.disclaimer AnalyzerService.elevated_closing = false /\
  (exists body, text NORMAL = body ++ AnalyzerService.normal_closing) /\
  contains Text.disclaimer AnalyzerService.normal_closing = false.
Proof.
  intros text.
  destruct (metric_lines_values metrics) as (V1 & V2 & V3).
  assert (EH : text HIGH =
               ("🔴 Обнаружены значимые отклонения от нормы." ++ nl ++ nl
                ++ AnalyzerService.metric_lines metrics ++ "Выявленные отклонения:" ++ nl)
               ++ Text.bullets anomalies ++ AnalyzerService.high_closing).
  { unfold text, AnalyzerService.generate_conclusion.
    rewrite add_bullets_spec, !append_assoc. reflexivity. }
  assert (EE : text ELEVATED =
               ("⚠️ Обнаружены незначительные отклонения." ++ nl ++ nl
                ++ AnalyzerService.metric_lines metrics ++ "Выявленные отклонения:" ++ nl)
               ++ Text.bullets anomalies ++ AnalyzerService.elevated_closing).
  { unfold text, AnalyzerService.generate_conclusion.
    rewrite add_bullets_spec, !append_assoc. reflexivity. }
  assert (EN : text NORMAL =
               ("✅ Все показатели в пределах нормы." ++ nl ++ nl
                ++ AnalyzerService.metric_lines metrics)
               ++ AnalyzerService.normal_closing).
  { unfold text, AnalyzerService.generate_conclusion.
    rewrite !append_assoc. reflexivity. }
  assert (Vals : forall level v,
             Text.occurs_in v (AnalyzerService.metric_lines metrics) ->
             Text.occurs_in v (text level)).
  { intros level v Hv. destruct level; [rewrite EN|rewrite EE|rewrite EH];
      apply occurs_in_app_l; do 3 apply occurs_in_app_r;
      [exact Hv|apply occurs_in_app_l, Hv|apply occurs_in_app_l, Hv]. }
  split; [intros level; repeat split; apply Vals; assumption|].
  split.
  { intros level [->| ->]; [rewrite EE|rewrite EH]; (split;
      [apply occurs_in_app_r, occurs_in_app_l, occurs_in_refl
      |intros a Ha; apply occurs_in_app_r, occurs_in_app_l, bullets_each, Ha]). }
  split; [eexists; exact EH|].
  split.
  { unfold AnalyzerService.high_closing.
    do 6 apply occurs_in_app_r. apply occurs_in_refl. }
  split; [eexists; exact EE|].
  split; [vm_compute; reflexivity|].
  split; [eexists; exact EN|].
  vm_compute; reflexivity.
Qed.

(** The ELEVATED text of a warm, symmetric reading has no word of the
    disclaimer: the claim that the ELEVATED and HIGH texts both carry it
    fails there. *)
Lemma elevated_text_without_disclaimer :
  fst (AnalyzerService.classify_risk (asymmetry Sample.metrics_warm)
                                     (max_temp Sample.metrics_warm)) = ELEVATED /\
  contains Text.disclaimer
    (AnalyzerService.generate_conclusion Sample.metrics_warm ELEVATED
                                         Sample.anomalies_warm) = false.
Proof. split; vm_compute; reflexivity. Qed.

Lemma generate_conclusion_templates_witness :
  Text.occurs_in ("• " ++ "Температура выше нормы: 37.6°C" ++ nl)
    (AnalyzerService.generate_conclusion Sample.metrics_warm ELEVATED
                                         Sample.anomalies_warm).
Proof.
  destruct (generate_conclusion_templates Sample.metrics_warm Sample.anomalies_warm)
    as (_ & H & _).
  apply (H ELEVATED); [now left|]. vm_compute. now left.
Defined.

(** ** The conclusion generator with providers *)

Section Generator.
Import LLMService Providers.

Variable w : world.
Variables (metrics : Metrics) (risk_level : RiskLevel) (anomalies : list string).

(** The lazy initialisation returns the handle and changes nothing but its
    own cache. *)
Lemma get_openai_client_spec (self : t) :
  fst (_get_openai_client w self) = Returns (openai_handle w self) /\
  openai_key (snd (_get_openai_client w self)) = openai_key self /\
  gemini_key (snd (_get_openai_client w self)) = gemini_key self /\
  gemini_model (snd (_get_openai_client w self)) = gemini_model self.
Proof.
  unfold _get_openai_client, openai_handle, mbind, get, put, ret, raise.
  destruct (openai_client self); [repeat split|].
  destruct (truthy (openai_key self)); [|repeat split].
  destruct (openai_init w (openai_key self)) as [c|e]; [repeat split|].
  destruct (is_ImportError e); repeat split.
Qed.

Lemma get_gemini_model_spec (self : t) :
  fst (_get_gemini_model w self) = Returns (gemini_handle w self).
Proof.
  unfold _get_gemini_model, gemini_handle, mbind, get, put, ret, raise.
  destruct (gemini_model self); [reflexivity|].
  destruct (truthy (gemini_key self)); [|reflexivity].
  destruct (gemini_init w (gemini_key self)) as [c|e]; [reflexivity|].
  destruct (is_ImportError e); reflexivity.
Qed.

(** One provider attempt: what it returns, from the handle. *)
Lemma generate_conclusion_openai_spec (self : t) :
  fst (generate_conclusion_openai w metrics risk_level anomalies self) =
    match openai_handle w self with
    | Ok (Some c) =>
        guarded (openai_chat w c (_build_prompt metrics risk_level anomalies))
    | Ok None => Returns (Ok None)
    | Raise e => Returns (Raise e)
    end.
Proof.
  unfold generate_conclusion_openai, mbind.
  pose proof (get_openai_client_spec self) as [H _].
  destruct (_get_openai_client w self) as [[[[c|]|e]|name] self']; cbn [fst] in H;
    inversion H as [H']; reflexivity.
Qed.

Lemma generate_conclusion_gemini_spec (self : t) :
  fst (generate_conclusion_gemini w metrics risk_level anomalies self) =
    match gemini_handle w self with
    | Ok (Some c) =>
        guarded (gemini_generate w c (_build_prompt metrics risk_level anomalies))
    | Ok None => Returns (Ok None)
    | Raise e => Returns (Raise e)
    end.
Proof.
  unfold generate_conclusion_gemini, mbind.
  pose proof (get_gemini_model_spec self) as H.
  destruct (_get_gemini_model w self) as [[[[c|]|e]|name] self']; cbn [fst] in H;
    inversion H as [H']; reflexivity.
Qed.

Lemma openai_attempt_state (self : t) :
  gemini_key (snd (generate_conclusion_openai w metrics risk_level anomalies self))
  = gemini_key self /\
  gemini_model (snd (generate_conclusion_openai w metrics risk_level anomalies self))
  = gemini_model self.
Proof.
  unfold generate_conclusion_openai, mbind.
  pose proof (get_openai_client_spec self) as (_ & _ & H2 & H3).
  destruct (_get_openai_client w self) as [[[[c|]|e]|name] self']; cbn [snd] in *; auto.
Qed.

Lemma gemini_handle_ext (self self' : t) :
  gemini_key self' = gemini_key self -> gemini_model self' = gemini_model self ->
  gemini_handle w self' = gemini_handle w self.
Proof. intros H1 H2. unfold gemini_handle. now rewrite H1, H2. Qed.

(** A guarded call followed by [if result: return result]. *)
Lemma guarded_if_result (attempt : outcome (option string)) (next : M string)
  (self : t) :
  fst (mbind (fun self0 => (guarded attempt, self0))
             (fun result => if_result result next) self)
  = after_call attempt (fst (next self)).
Proof.
  unfold mbind, guarded, after_call, if_result, ret.
  destruct attempt as [[[s|]|e]|name]; try reflexivity.
  destruct (truthy s); reflexivity.
Qed.

(** The Gemini stage of the generator. *)
Lemma gemini_part_stage (self self' : t) :
  gemini_key self' = gemini_key self -> gemini_model self' = gemini_model self ->
  fst (mbind get (fun self0 =>
         if truthy (gemini_key self0) then
           mbind (generate_conclusion_gemini w metrics risk_level anomalies)
             (fun result => if_result result
                (ret (_generate_rule_based metrics risk_level anomalies)))
         else ret (_generate_rule_based metrics risk_level anomalies)) self')
  = gemini_stage w metrics risk_level anomalies self.
Proof.
  intros K1 K2. unfold gemini_stage.
  rewrite <- (gemini_handle_ext self self' K1 K2), <- K1.
  unfold mbind at 1, get.
  destruct (truthy (gemini_key self')); [|reflexivity].
  unfold generate_conclusion_gemini.
  pose proof (get_gemini_model_spec self') as H.
  unfold mbind at 1 2.
  destruct (_get_gemini_model w self') as [[[[c|]|e]|name] s2]; cbn [fst] in H;
    inversion H as [H']; try reflexivity.
  unfold guarded, after_call, if_result, ret.
  destruct (gemini_generate w c _) as [[[s|]|e]|name]; try reflexivity.
  destruct (truthy s); reflexivity.
Qed.

(** The whole generator, stage by stage. *)
Lemma generate_conclusion_stages (self : t) :
  fst (generate_conclusion w metrics risk_level anomalies self) =
    if truthy (openai_key self) then
      match openai_handle w self with
      | Ok (Some c) =>
          after_call (openai_chat w c (_build_prompt metrics risk_level anomalies))
                     (gemini_stage w metrics risk_level anomalies self)
      | Ok None => gemini_stage w metrics risk_level anomalies self
      | Raise e => Returns (Raise e)
      end
    else gemini_stage w metrics risk_level anomalies self.
Proof.
  unfold generate_conclusion. unfold mbind at 1, get at 1.
  destruct (truthy (openai_key self)); [|now apply gemini_part_stage].
  unfold generate_conclusion_openai.
  pose proof (get_openai_client_spec self) as (H & _ & K1 & K2).
  unfold mbind at 1 2.
  destruct (_get_openai_client w self) as [[[[c|]|e]|name] s1]; cbn [fst snd] in H, K1, K2;
    inversion H as [H']; try reflexivity.
  - unfold guarded, after_call, if_result, ret.
    destruct (openai_chat w c _) as [[[s|]|e]|name]; try reflexivity;
      try (now apply gemini_part_stage).
    destruct (truthy s); [reflexivity|now apply gemini_part_stage].
  - unfold if_result. now apply gemini_part_stage.
Qed.

(** X7. When no client construction raises, or none but [ImportError],
    and the exceptions of the provider calls derive from [Exception], the
    generator raises nothing: it returns a text whether the calls answer,
    raise or give nothing (what the handlers print apart). *)
Lemma generate_conclusion_returns (self : t) :
  clients_build w self ->
  calls_caught w (_build_prompt metrics risk_level anomalies) ->
  exists text,
    fst (generate_conclusion w metrics risk_level anomalies self) = Ok text.
Proof.
  intros [B1 B2] C. rewrite generate_conclusion_stages.
  assert (A : forall attempt next,
             (forall name, attempt <> Escapes name) ->
             (exists text, next = Returns (Ok text)) ->
             exists text, after_call attempt next = Returns (Ok text)).
  { intros attempt next N [text ->]. unfold after_call.
    destruct attempt as [[[s|]|e]|name]; try (eexists; reflexivity).
    - destruct (truthy s); eexists; reflexivity.
    - now destruct (N name). }
  assert (G : exists text,
             gemini_stage w metrics risk_level anomalies self = Returns (Ok text)).
  { unfold gemini_stage. destruct (truthy (gemini_key self)); [|eexists; reflexivity].
    destruct (gemini_handle w self) as [[c|]|e]; [| |discriminate];
      [|eexists; reflexivity].
    apply A; [intros name; apply (C c name)|eexists; reflexivity]. }
  destruct (truthy (openai_key self)); [|exact G].
  destruct (openai_handle w self) as [[c|]|e]; [| |discriminate]; [|exact G].
  apply A; [intros name; apply (C c name)|exact G].
Qed.

(** X8. When both providers give nothing (no key, no package, a call
    that raises an exception deriving from [Exception], an answer that is
    [None] or empty), the generator returns the rule-based text. *)
Lemma generate_conclusion_fallback (self : t) :
  openai_gives_nothing w self (_build_prompt metrics risk_level anomalies) ->
  gemini_gives_nothing w self (_build_prompt metrics risk_level anomalies) ->
  fst (generate_conclusion w metrics risk_level anomalies self) =
    Ok (_generate_rule_based metrics risk_level anomalies).
Proof.
  intros HO HG. rewrite generate_conclusion_stages.
  assert (A : forall attempt next, no_text attempt -> after_call attempt next = next).
  { intros attempt next N. unfold after_call, no_text, truthy_opt in *.
    destruct attempt as [[[s|]|e]|name]; try reflexivity; [|destruct N].
    now rewrite N. }
  assert (G : gemini_stage w metrics risk_level anomalies self
              = Returns (Ok (_generate_rule_based metrics risk_level anomalies))).
  { unfold gemini_stage. destruct HG as [K|[K|(c & K & N)]].
    - now rewrite K.
    - rewrite K. now destruct (truthy (gemini_key self)).
    - rewrite K. destruct (truthy (gemini_key self)); [|reflexivity].
      now apply A. }
  destruct HO as [K|[K|(c & K & N)]].
  - now rewrite K.
  - rewrite K. now destruct (truthy (openai_key self)).
  - rewrite K. destruct (truthy (openai_key self)); [|exact G].
    rewrite A by exact N. exact G.
Qed.

(** X16. An exception of the awaited Gemini call that does not derive
    from [Exception], as the [CancelledError] of a cancelled task, is not
    caught: when OpenAI has given nothing, the generator ends with it and
    returns no text. *)
Lemma generate_conclusion_lets_escape (self : t) (c : client) (name : string) :
  openai_gives_nothing w self (_build_prompt metrics risk_level anomalies) ->
  truthy (gemini_key self) = true ->
  gemini_handle w self = Ok (Some c) ->
  gemini_generate w c (_build_prompt metrics risk_level anomalies) = Escapes name ->
  fst (generate_conclusion w metrics risk_level anomalies self) = Escapes name.
Proof.
  intros HO Hk Hh Hc. rewrite generate_conclusion_stages.
  assert (A : forall attempt next, no_text attempt -> after_call attempt next = next).
  { intros attempt next N. unfold after_call, no_text, truthy_opt in *.
    destruct attempt as [[[s|]|e]|name']; try reflexivity; [|destruct N].
    now rewrite N. }
  assert (G : gemini_stage w metrics risk_level anomalies self = Escapes name).
  { unfold gemini_stage. rewrite Hk, Hh, Hc. reflexivity. }
  destruct HO as [K|[K|(c' & K & N)]].
  - now rewrite K.
  - rewrite K. now destruct (truthy (openai_key self)).
  - rewrite K. destruct (truthy (openai_key self)); [|exact G].
    rewrite A by exact N. exact G.
Qed.

End Generator.

(** C4, where the code departs from it.  With an OpenAI key configured
    and a client constructor that raises something else than [ImportError],
    the generator raises that exception: the constructor is called outside
    the [try] of the provider attempt and [_get_openai_client] guards the
    import only. *)
Theorem generate_conclusion_propagates_constructor_error
  (metrics : Metrics) (risk_level : RiskLevel) (anomalies : list string) :
  fst (LLMService.generate_conclusion Providers.world_broken_constructor
         metrics risk_level anomalies Providers.service_openai)
  = Raise Providers.constructor_error.
Proof. reflexivity. Qed.

(** Two calls in a world where both calls fail return the same rule-based
    text, whatever the caches hold in between. *)
Lemma generate_conclusion_fallback_twice
  (metrics : Metrics) (risk_level : RiskLevel) (anomalies : list string) :
  let run := LLMService.generate_conclusion Providers.world_calls_fail
               metrics risk_level anomalies in
  fst (run Providers.service_both)
    = Ok (LLMService._generate_rule_based metrics risk_level anomalies) /\
  fst (run (snd (run Providers.service_both)))
    = Ok (LLMService._generate_rule_based metrics risk_level anomalies).
Proof. split; reflexivity. Qed.

(** ** Rounding does not cross a representable number *)

Lemma shifted_shr_1 (mrs : shr_record) :
  0 <= shr_m mrs -> shifted 1 mrs (shr_1 mrs).
Proof.
  destruct mrs as [m r s]. cbn [shr_m]. intros Hm.
  unfold shifted. cbn [shr_m shr_r shr_s]. change (2 ^ 1) with 2.
  destruct m as [|[p|p|]|p]; try lia; cbn [shr_1 shr_m shr_r shr_s].
  - split; [reflexivity|]. intros _ -> ->. split; reflexivity.
  - split; [rewrite Pos2Z.inj_xI; apply Z.div_unique with 1; lia|].
    intros H. exfalso. rewrite Pos2Z.inj_xI in H.
    rewrite Z.add_comm, Z.mul_comm, Z.mod_add in H by lia. discriminate.
  - split; [rewrite Pos2Z.inj_xO; apply Z.div_unique with 0; lia|].
    intros _ -> ->. split; reflexivity.
  - split; [reflexivity|]. intros H. discriminate.
Qed.

Lemma shifted_trans (a b : Z) (x y z : shr_record) :
  0 <= a -> 0 <= b -> 0 <= shr_m x ->
  shifted a x y -> shifted b y z -> shifted (a + b) x z.
Proof.
  intros Ha Hb Hx [Hy Ey] [Hz Ez]. unfold shifted.
  assert (Pa : 0 < 2 ^ a) by (apply Z.pow_pos_nonneg; lia).
  assert (Pb : 0 < 2 ^ b) by (apply Z.pow_pos_nonneg; lia).
  rewrite Z.pow_add_r by lia. split.
  - rewrite Hz, Hy. apply Z.div_div; lia.
  - intros Hmod Hr Hs.
    assert (D : shr_m x = 2 ^ a * 2 ^ b * (shr_m x / (2 ^ a * 2 ^ b))).
    { apply Z.div_exact; [nia|exact Hmod]. }
    set (q := shr_m x / (2 ^ a * 2 ^ b)) in D.
    assert (Hma : shr_m x mod 2 ^ a = 0).
    { rewrite D. replace (2 ^ a * 2 ^ b * q) with (2 ^ b * q * 2 ^ a) by ring.
      apply Z.mod_mul. lia. }
    destruct (Ey Hma Hr Hs) as [Hr' Hs'].
    apply Ez; auto.
    rewrite Hy, D. replace (2 ^ a * 2 ^ b * q) with (2 ^ b * q * 2 ^ a) by ring.
    rewrite Z.div_mul by lia. rewrite Z.mul_comm. apply Z.mod_mul. lia.
Qed.

Lemma shifted_nonneg (k : Z) (x y : shr_record) :
  0 <= k -> 0 <= shr_m x -> shifted k x y -> 0 <= shr_m y.
Proof.
  intros Hk Hx [Hy _]. rewrite Hy. apply Z.div_pos; [exact Hx|].
  apply Z.pow_pos_nonneg; lia.
Qed.

Lemma iter_pos_shr_1 (p : positive) (mrs : shr_record) :
  0 <= shr_m mrs -> shifted (Z.pos p) mrs (iter_pos shr_1 p mrs).
Proof.
  revert mrs. induction p as [p IH|p IH|]; intros mrs Hm; cbn [iter_pos].
  - pose proof (shifted_shr_1 mrs Hm) as S1.
    assert (N1 : 0 <= shr_m (shr_1 mrs)) by (eapply (shifted_nonneg 1); [lia|exact Hm|exact S1]).
    pose proof (IH _ N1) as S2.
    assert (N2 : 0 <= shr_m (iter_pos shr_1 p (shr_1 mrs))) by (eapply (shifted_nonneg (Z.pos p)); [lia|exact N1|exact S2]).
    pose proof (IH _ N2) as S3.
    replace (Z.pos p~1) with (1 + (Z.pos p + Z.pos p)) by lia.
    eapply shifted_trans; [lia|lia|exact Hm|exact S1|].
    eapply shifted_trans; [lia|lia|exact N1|exact S2|exact S3].
  - pose proof (IH _ Hm) as S2.
    assert (N2 : 0 <= shr_m (iter_pos shr_1 p mrs)) by (eapply (shifted_nonneg (Z.pos p)); [lia|exact Hm|exact S2]).
    pose proof (IH _ N2) as S3.
    replace (Z.pos p~0) with (Z.pos p + Z.pos p) by lia.
    eapply shifted_trans; [lia|lia|exact Hm|exact S2|exact S3].
  - now apply shifted_shr_1.
Qed.

Lemma Zdigits2_bounds (M : Z) :
  0 < M -> 0 < Zdigits2 M /\ 2 ^ (Zdigits2 M - 1) <= M < 2 ^ Zdigits2 M.
Proof.
  destruct M as [|p|p]; try lia. intros _. cbn [Zdigits2].
  split; [lia|apply digits2_bounds].
Qed.

(** One pass of [shr_fexp] on an exact mantissa. *)
Lemma shr_fexp_exact (M E : Z) :
  0 <= M ->
  let n := Z.max E (fexp prec emax (Zdigits2 M + E)) - E in
  shr_fexp prec emax M E loc_Exact
  = (fst (shr_fexp prec emax M E loc_Exact), E + n) /\
  shifted n (Build_shr_record M false false) (fst (shr_fexp prec emax M E loc_Exact)).
Proof.
  intros HM n. unfold shr_fexp, shr. cbn [shr_record_of_loc].
  destruct (fexp prec emax (Zdigits2 M + E) - E) as [|p|p] eqn:En; cbn [fst].
  - assert (n = 0) by (unfold n; lia). replace (E + n) with E by lia.
    split; [reflexivity|]. replace n with 0 by lia.
    unfold shifted. cbn [shr_m shr_r shr_s]. rewrite Z.pow_0_r, Z.div_1_r. auto.
  - assert (n = Z.pos p) by (unfold n; lia).
    split; [f_equal; lia|]. replace n with (Z.pos p) by lia.
    now apply iter_pos_shr_1.
  - assert (n = 0) by (unfold n; lia). replace (E + n) with E by lia.
    split; [reflexivity|]. replace n with 0 by lia.
    unfold shifted. cbn [shr_m shr_r shr_s]. rewrite Z.pow_0_r, Z.div_1_r. auto.
Qed.

Lemma round_nearest_even_bounds (mrs : shr_record) :
  let m1 := round_nearest_even (shr_m mrs) (loc_of_shr_record mrs) in
  shr_m mrs <= m1 <= shr_m mrs + 1 /\
  (shr_r mrs = false /\ shr_s mrs = false -> m1 = shr_m mrs).
Proof.
  destruct mrs as [m [|] [|]]; cbn [shr_m shr_r shr_s loc_of_shr_record round_nearest_even].
  - split; [lia|]. intros [? ?]; discriminate.
  - split; [destruct (Z.even m); lia|]. intros [? ?]; discriminate.
  - split; [lia|]. intros [? ?]; discriminate.
  - split; [lia|]. reflexivity.
Qed.

(** The integer core: [C = mc * 2^t] is a number representable [t] bits
    above the exponent of [M]; shifting [M] to its format exponent keeps it
    on the same side of [C]. *)
Lemma round_core (M E mc t : Z) :
  0 < M -> 0 <= t -> -1074 <= E + t -> 0 <= mc < 2 ^ 53 ->
  let C := mc * 2 ^ t in
  let n := Z.max E (fexp prec emax (Zdigits2 M + E)) - E in
  0 <= n /\
  (C <= M -> C <= M / 2 ^ n * 2 ^ n) /\
  (M <= C -> n <= t /\
             forall m1, M / 2 ^ n <= m1 <= M / 2 ^ n + 1 ->
                        (M mod 2 ^ n = 0 -> m1 = M / 2 ^ n) ->
                        m1 * 2 ^ n <= C).
Proof.
  intros HM Ht Hec Hmc C n.
  destruct (Zdigits2_bounds M HM) as (Hd & Hlo & Hhi).
  set (d := Zdigits2 M) in *.
  assert (Fn : n = Z.max E (Z.max (d + E - 53) (-1074)) - E) by reflexivity.
  clearbody n.
  assert (Hn : 0 <= n) by lia.
  assert (Pn : 0 < 2 ^ n) by (apply Z.pow_pos_nonneg; lia).
  assert (Pt : 0 < 2 ^ t) by (apply Z.pow_pos_nonneg; lia).
  pose proof (Z.div_mod M (2 ^ n) ltac:(lia)) as DM.
  pose proof (Z.mod_pos_bound M (2 ^ n) Pn) as BM.
  set (m := M / 2 ^ n) in *. set (r := M mod 2 ^ n) in *.
  split; [exact Hn|].
  destruct (Z_le_gt_dec n t) as [Hnt|Hnt].
  - (* C is a multiple of 2^n *)
    assert (EC : C = mc * 2 ^ (t - n) * 2 ^ n).
    { unfold C. rewrite <- Z.mul_assoc, <- Z.pow_add_r by lia. do 2 f_equal. lia. }
    set (K := mc * 2 ^ (t - n)) in *.
    clearbody C K. subst C.
    split.
    + intros HC.
      assert (K <= m) by (apply Z.div_le_lower_bound; lia).
      apply Z.mul_le_mono_nonneg_r; lia.
    + intros HC. split; [exact Hnt|]. intros m1 Hm1 Hex.
      assert (Hm : m <= K).
      { apply Z.div_le_upper_bound; [lia|]. lia. }
      destruct (Z.eq_dec r 0) as [Hr|Hr].
      * rewrite (Hex Hr). apply Z.mul_le_mono_nonneg_r; lia.
      * assert (m < K).
        { destruct (Z.eq_dec m K) as [->|]; [|lia]. exfalso. lia. }
        apply Z.mul_le_mono_nonneg_r; lia.
  - (* the format exponent of M is above the one of C *)
    assert (En : n = d - 53) by lia.
    assert (P1 : 2 ^ (d - 1) = 2 ^ 52 * 2 ^ n).
    { rewrite <- Z.pow_add_r by lia. f_equal. lia. }
    assert (P2 : 2 ^ 53 * 2 ^ t <= 2 ^ 52 * 2 ^ n).
    { rewrite <- !Z.pow_add_r by lia. apply Z.pow_le_mono_r; lia. }
    assert (HCM : C < M).
    { unfold C. nia. }
    split.
    + intros _. assert (2 ^ 52 <= m) by nia. nia.
    + intros HC. lia.
Qed.

Lemma pow2_split_Z (t n : Z) : 0 <= n <= t -> 2 ^ t = 2 ^ (t - n) * 2 ^ n.
Proof. intros H. rewrite <- Z.pow_add_r by lia. f_equal. lia. Qed.

(** One pass, both sides: [lo * 2^t <= M <= hi * 2^t] goes over to the
    shifted and rounded mantissa with [t - n] in place of [t]. *)
Lemma round_pass (M E lo hi t m1 : Z) :
  0 < M -> 0 <= t -> -1074 <= E + t -> 0 <= lo <= hi -> hi < 2 ^ 53 ->
  lo * 2 ^ t <= M <= hi * 2 ^ t ->
  let n := Z.max E (fexp prec emax (Zdigits2 M + E)) - E in
  M / 2 ^ n <= m1 <= M / 2 ^ n + 1 ->
  (M mod 2 ^ n = 0 -> m1 = M / 2 ^ n) ->
  0 <= n <= t /\ lo * 2 ^ (t - n) <= m1 <= hi * 2 ^ (t - n).
Proof.
  intros HM Ht Hec Hlh Hhi [Hlo Hup] n Hm1 Hex.
  destruct (round_core M E hi t HM Ht Hec ltac:(lia)) as (Hn & _ & U).
  destruct (round_core M E lo t HM Ht Hec ltac:(lia)) as (_ & L & _).
  fold n in Hn, U, L.
  destruct (U Hup) as [Hnt U']. specialize (U' m1 Hm1 Hex). specialize (L Hlo).
  assert (Pn : 0 < 2 ^ n) by (apply Z.pow_pos_nonneg; lia).
  split; [lia|].
  rewrite (pow2_split_Z t n) in U', L by lia.
  rewrite Z.mul_assoc in U', L.
  split.
  - apply (Z.mul_le_mono_pos_r _ _ (2 ^ n) Pn).
    eapply Z.le_trans; [exact L|]. apply Z.mul_le_mono_nonneg_r; lia.
  - apply (Z.mul_le_mono_pos_r _ _ (2 ^ n) Pn). exact U'.
Qed.

(** A product or a sum known exactly, between two numbers representable
    at the exponent [ec], rounds to a number between them. *)
Lemma binary_round_aux_between (s : bool) (M E lo hi ec : Z) :
  0 < M -> E <= ec -> -1074 <= ec <= 971 -> 0 <= lo <= hi -> hi < 2 ^ 53 ->
  lo * 2 ^ (ec - E) <= M <= hi * 2 ^ (ec - E) ->
  match binary_round_aux prec emax s M E loc_Exact with
  | S754_zero s' => s' = s /\ lo = 0
  | S754_finite s' m e =>
      s' = s /\ E <= e <= ec /\ lo * 2 ^ (ec - e) <= Z.pos m <= hi * 2 ^ (ec - e)
  | _ => False
  end.
Proof.
  intros HM HE Hec Hlh Hhi HB.
  unfold binary_round_aux.
  destruct (shr_fexp_exact M E ltac:(lia)) as [E1 S1].
  set (n1 := Z.max E (fexp prec emax (Zdigits2 M + E)) - E) in *.
  rewrite E1. destruct S1 as [Sm Sx]. cbn [shr_m shr_r shr_s] in Sm, Sx.
  set (mrs1 := fst (shr_fexp prec emax M E loc_Exact)) in *.
  pose proof (round_nearest_even_bounds mrs1) as [Rb Rx].
  set (m1 := round_nearest_even (shr_m mrs1) (loc_of_shr_record mrs1)) in *.
  rewrite Sm in Rb, Rx.
  destruct (round_pass M E lo hi (ec - E) m1 HM ltac:(lia) ltac:(lia) Hlh Hhi HB Rb)
    as [Hn1 B1].
  { intros Hmod. apply Rx. apply Sx; auto. }
  fold n1 in Hn1, B1.
  replace (ec - E - n1) with (ec - (E + n1)) in B1 by lia.
  assert (P1 : 0 < 2 ^ (ec - (E + n1))) by (apply Z.pow_pos_nonneg; lia).
  assert (Hm1 : 0 <= m1) by nia.
  destruct (shr_fexp_exact m1 (E + n1) Hm1) as [E2 S2].
  set (n2 := Z.max (E + n1) (fexp prec emax (Zdigits2 m1 + (E + n1))) - (E + n1)) in *.
  rewrite E2. destruct S2 as [Sm2 _]. cbn [shr_m] in Sm2.
  set (mrs2 := fst (shr_fexp prec emax m1 (E + n1) loc_Exact)) in *.
  rewrite Sm2.
  assert (Hn2 : 0 <= n2) by (unfold n2; lia).
  assert (Pn2 : 0 < 2 ^ n2) by (apply Z.pow_pos_nonneg; lia).
  destruct (Z.eq_dec m1 0) as [Z1|NZ1].
  - rewrite Z1, Z.div_0_l by lia. split; [reflexivity|]. nia.
  - assert (Hm1' : 0 < m1) by lia.
    destruct (round_pass m1 (E + n1) lo hi (ec - (E + n1)) (m1 / 2 ^ n2)
                Hm1' ltac:(lia) ltac:(lia) Hlh Hhi B1) as [Hn2' B2]; fold n2; try fold n2 in Hn2', B2.
    { lia. }
    { reflexivity. }
    replace (ec - (E + n1) - n2) with (ec - (E + n1 + n2)) in B2 by lia.
    assert (P2 : 0 < 2 ^ (ec - (E + n1 + n2))) by (apply Z.pow_pos_nonneg; lia).
    destruct (m1 / 2 ^ n2) as [|m2|m2] eqn:Em2.
    + split; [reflexivity|]. nia.
    + destruct (Z.leb_spec (E + n1 + n2) (emax - prec)) as [Hle|Hgt].
      * split; [reflexivity|]. split; [lia|exact B2].
      * unfold emax, prec in Hgt. lia.
    + exfalso. nia.
Qed.

Lemma binary_round_aux_between' (M E lo hi ec : Z) :
  0 < M -> E <= ec -> -1074 <= ec <= 971 -> 0 <= lo <= hi -> hi < 2 ^ 53 ->
  lo * 2 ^ (ec - E) <= M <= hi * 2 ^ (ec - E) ->
  between lo hi ec (binary_round_aux prec emax false M E loc_Exact).
Proof.
  intros HM HE Hec Hlh Hhi HB.
  pose proof (binary_round_aux_between false M E lo hi ec HM HE Hec Hlh Hhi HB) as H.
  destruct (binary_round_aux prec emax false M E loc_Exact); cbn [between]; tauto.
Qed.

Lemma binary_round_between (p : positive) (E lo hi ec : Z) :
  E <= ec -> -1074 <= ec <= 971 -> 0 <= lo <= hi -> hi < 2 ^ 53 ->
  lo * 2 ^ (ec - E) <= Z.pos p <= hi * 2 ^ (ec - E) ->
  between lo hi ec (binary_round prec emax false p E).
Proof.
  intros HE Hec Hlh Hhi HB. unfold binary_round.
  set (f := fexp prec emax (Z.pos (digits2_pos p) + E)).
  destruct (Z_le_gt_dec E f) as [Hf|Hf].
  - assert (Es : shl_align p E f = (p, E)).
    { unfold shl_align. destruct (f - E) eqn:D; try reflexivity. lia. }
    rewrite Es. apply binary_round_aux_between'; auto. lia.
  - pose proof (shl_align_fst p E f ltac:(lia)) as Hs.
    assert (Es : snd (shl_align p E f) = f).
    { unfold shl_align. destruct (f - E) eqn:D; try lia. reflexivity. }
    destruct (shl_align p E f) as [mz ez]. cbn [fst snd] in Hs, Es. subst ez.
    apply binary_round_aux_between'; auto; try lia.
    rewrite Hs.
    assert (P : 0 < 2 ^ (E - f)) by (apply Z.pow_pos_nonneg; lia).
    rewrite (pow2_split_Z (ec - f) (E - f)) by lia.
    replace (ec - f - (E - f)) with (ec - E) by lia.
    rewrite !Z.mul_assoc. split; apply Z.mul_le_mono_nonneg_r; lia.
Qed.

(** *** The arithmetic of the simulated readings *)

Lemma finite_nonneg_inv (u : float) :
  is_finite u = true -> (0 <= B2Q u)%Q ->
  (exists s, u = S754_zero s) \/ exists m e, u = S754_finite false m e.
Proof.
  destruct u as [s|s| |[|] m e]; try discriminate; intros _ H.
  - left. now exists s.
  - exfalso. pose proof (B2Q_neg m e). lra.
  - right. now exists m, e.
Qed.

(** [u * 1.5] for [u] in [[0, 1)]. *)
Lemma fmul_unit_15 (u : float) :
  is_finite u = true -> (0 <= B2Q u < 1)%Q ->
  (exists s, fmul u (dec 15 1) = S754_zero s) \/
  between 0 6755399441055744 (-52) (fmul u (dec 15 1)).
Proof.
  intros Fu [H0 H1].
  destruct (finite_nonneg_inv u Fu H0) as [[s ->]|(m & e & ->)].
  - left. exists s. now destruct s.
  - right.
    change (dec 15 1) with (S754_finite false 6755399441055744 (-52)).
    cbn [fmul SFmul xorb].
    rewrite B2Q_finite in H1. cbn [Fval] in H1.
    assert (He : e < 0).
    { destruct (Z_lt_ge_dec e 0) as [?|Hge]; [assumption|exfalso].
      setoid_replace 1%Q with (inject_Z 1 * pow2 0)%Q in H1 by reflexivity.
      apply (dy_lt _ _ _ _ 0) in H1; [|lia|lia].
      rewrite Z.sub_0_r, Z.sub_diag in H1. change (2 ^ 0) with 1 in H1.
      assert (0 < 2 ^ e) by (apply Z.pow_pos_nonneg; lia). nia. }
    assert (Hm : Z.pos m < 2 ^ (- e)).
    { setoid_replace 1%Q with (inject_Z 1 * pow2 0)%Q in H1 by reflexivity.
      apply (dy_lt _ _ _ _ e) in H1; [|lia|lia].
      rewrite Z.sub_diag, Z.mul_1_r, Z.mul_1_l in H1.
      now replace (0 - e) with (- e) in H1 by lia. }
    apply binary_round_aux_between'; try lia.
    replace (-52 - (e + -52)) with (- e) by lia.
    rewrite Pos2Z.inj_mul. nia.
Qed.

(** [36.0 + v] for [v] in [[0, 1.5]]. *)
Lemma fadd_36 (v : float) :
  (exists s, v = S754_zero s) \/ between 0 6755399441055744 (-52) v ->
  between 5066549580791808 5277655813324800 (-47) (fadd (dec 360 1) v).
Proof.
  change (dec 360 1) with (S754_finite false 5066549580791808 (-47)).
  intros [[s ->]|H].
  - cbn. repeat split; discriminate || lia.
  - destruct v as [s|s| |s m e]; cbn [between] in H; try tauto.
    + cbn. repeat split; discriminate || lia.
    + destruct H as (-> & He & _ & Hup).
      unfold fadd, SFadd.
      replace (Z.min (-47) e) with e by lia.
      rewrite !shl_align_fst by lia.
      rewrite Z.sub_diag, Z.mul_1_r. cbn [cond_Zopp].
      assert (P : 0 < 2 ^ (-52 - e)) by (apply Z.pow_pos_nonneg; lia).
      assert (E5 : 2 ^ (-47 - e) = 32 * 2 ^ (-52 - e)).
      { replace (-47 - e) with (5 + (-52 - e)) by lia.
        rewrite Z.pow_add_r by lia. reflexivity. }
      destruct (5066549580791808 * 2 ^ (-47 - e) + Z.pos m) as [|p|p] eqn:Ep; try lia.
      unfold binary_normalize.
      apply binary_round_between; lia.
Qed.

Lemma round_half_even_bounds (n d a b : Z) :
  0 < d -> a * d <= n <= b * d -> a <= round_half_even n d <= b.
Proof.
  intros Hd [Ha Hb]. unfold round_half_even.
  pose proof (Z.div_mod n d ltac:(lia)) as DM.
  pose proof (Z.mod_pos_bound n d Hd) as BM.
  assert (a <= n / d) by (apply Z.div_le_lower_bound; lia).
  assert (n / d <= b) by (apply Z.div_le_upper_bound; lia).
  assert (n mod d <> 0 -> n / d < b).
  { intros Hr. destruct (Z.eq_dec (n / d) b) as [E|]; [|lia]. rewrite E in DM. lia. }
  destruct (Z.compare_spec (2 * (n mod d)) d); [destruct (Z.even (n / d))| |]; lia.
Qed.

(** The sixteen one-decimal values from 36.0 to 37.5. *)
Lemma tenths_36_375 (k : nat) :
  (k < 16)%nat ->
  let t := fdiv (S754_finite false (Z.to_pos (360 + Z.of_nat k)) 0) (of_Z 10) in
  is_finite t = true /\ (36 <= B2Q t <= 375 # 10)%Q.
Proof.
  intros Hk.
  do 16 (destruct k as [|k]; [vm_compute; repeat split; discriminate|]).
  lia.
Qed.

(** [round(w, 1)] for [w] in [[36.0, 37.5]]. *)
Lemma py_round_36_375 (w : float) :
  between 5066549580791808 5277655813324800 (-47) w ->
  is_finite (py_round w 1) = true /\ (36 <= B2Q (py_round w 1) <= 375 # 10)%Q.
Proof.
  destruct w as [s|s| |s m e]; cbn [between]; try tauto; [intros [_ ?]; lia|].
  intros (-> & He & Hlo & Hup).
  unfold py_round, scaled_digits.
  destruct (Z.leb_spec 0 e) as [?|_]; [lia|].
  change (10 ^ Z.of_nat 1) with 10.
  assert (P : 0 < 2 ^ (-47 - e)) by (apply Z.pow_pos_nonneg; lia).
  assert (E47 : 2 ^ (- e) = 140737488355328 * 2 ^ (-47 - e)).
  { replace (- e) with (47 + (-47 - e)) by lia.
    rewrite Z.pow_add_r by lia. reflexivity. }
  assert (B : 360 <= round_half_even (Z.pos m * 10) (2 ^ (- e)) <= 375).
  { apply round_half_even_bounds; [lia|]. rewrite E47. lia. }
  set (n := round_half_even (Z.pos m * 10) (2 ^ (- e))) in *.
  pose proof (tenths_36_375 (Z.to_nat (n - 360)) ltac:(lia)) as T.
  replace (360 + Z.of_nat (Z.to_nat (n - 360))) with n in T by lia.
  destruct n as [|p|p]; try lia. exact T.
Qed.

(** One simulated temperature: [round(36.0 + u * 1.5, 1)] for a draw [u]
    of [[0.0, 1.0)] lies between 36.0 and 37.5, both included. *)
Lemma simulated_temperature_bounds (u : float) :
  is_finite u = true -> (0 <= B2Q u < 1)%Q ->
  let t := py_round (fadd (dec 360 1) (fmul u (dec 15 1))) 1 in
  is_finite t = true /\ (36 <= B2Q t <= 375 # 10)%Q.
Proof.
  intros Fu Hu. apply py_round_36_375, fadd_36, fmul_unit_15; assumption.
Qed.

(** ** The image extractor *)

Section Extractor.
Import Images Grid.

Lemma firstn_seq {A} (d : A) (n : nat) (l : list A) :
  (n <= List.length l)%nat ->
  firstn n l = map (fun i => nth i l d) (seq 0 n).
Proof.
  revert l. induction n as [|n IH]; intros l Hn; [reflexivity|].
  destruct l as [|x l]; [cbn in Hn; lia|].
  cbn [firstn seq map nth]. f_equal.
  rewrite <- seq_shift, map_map. apply IH. cbn in Hn. lia.
Qed.

Lemma nth_skipn {A} (d : A) (a i : nat) (l : list A) :
  nth i (skipn a l) d = nth (a + i) l d.
Proof.
  revert l. induction a as [|a IH]; intros l; [reflexivity|].
  destruct l as [|x l]; [now destruct i|]. apply IH.
Qed.

(** A slice within the list, element by element. *)
Lemma slice_seq {A} (d : A) (a b : nat) (l : list A) :
  (a <= b <= List.length l)%nat ->
  slice a b l = map (fun i => nth (a + i) l d) (seq 0 (b - a)).
Proof.
  intros H. unfold slice.
  rewrite (firstn_seq d) by (rewrite length_skipn; lia).
  apply map_ext. intros i. apply nth_skipn.
Qed.

Lemma rectangular_row (img : image) (y : nat) :
  rectangular img -> (y < height img)%nat ->
  List.length (nth y img []) = width img.
Proof.
  intros R Hy. unfold rectangular in R. rewrite Forall_forall in R.
  apply R, nth_In, Hy.
Qed.

(** The slicing of the code takes the tile of the grid. *)
Lemma zone_pixels_tile (img : image) (row col : nat) :
  rectangular img -> (row < 2)%nat -> (col < 4)%nat ->
  let zone_h := (height img / 2)%nat in
  let zone_w := (width img / 4)%nat in
  zone_pixels img (row * zone_h) ((row + 1) * zone_h)
                  (col * zone_w) ((col + 1) * zone_w)
  = tile img row col.
Proof.
  intros R Hr Hc zone_h zone_w.
  assert (Hh : (2 * zone_h <= height img)%nat) by (apply Nat.Div0.mul_div_le).
  assert (Hw : (4 * zone_w <= width img)%nat) by (apply Nat.Div0.mul_div_le).
  unfold zone_pixels, tile. fold zone_h zone_w.
  rewrite (slice_seq [] (row * zone_h) ((row + 1) * zone_h) img)
    by (unfold height in Hh; nia).
  replace ((row + 1) * zone_h - row * zone_h)%nat with zone_h by nia.
  rewrite map_map, flat_map_concat_map. f_equal.
  apply map_ext_in. intros i Hi. apply in_seq in Hi.
  unfold pixel.
  rewrite (slice_seq (RGB 0 0 0) (col * zone_w) ((col + 1) * zone_w)).
  - replace ((col + 1) * zone_w - col * zone_w)%nat with zone_w by nia. reflexivity.
  - rewrite rectangular_row by (auto; nia). nia.
Qed.

Lemma zone_temp_tile (img : image) (row col : nat) :
  rectangular img -> (row < 2)%nat -> (col < 4)%nat ->
  let zone_h := (height img / 2)%nat in
  let zone_w := (width img / 4)%nat in
  let zone := zone_pixels img (row * zone_h) ((row + 1) * zone_h)
                              (col * zone_w) ((col + 1) * zone_w) in
  zone_temp (channel_mean red zone) (channel_mean green zone) = tile_temp img row col.
Proof.
  intros R Hr Hc zone_h zone_w zone. unfold zone.
  rewrite zone_pixels_tile by assumption. reflexivity.
Qed.

(** C6, as the code has it.  A decoded image is cut into the 2 x 4 grid
    and the tiles are visited row after row; each tile gets
    [34.0 + (red / 255) * 5.0] from its mean red, less [0.5] when its mean
    green is strictly above [0.8] times its mean red, rounded to one
    decimal; the metadata have [zones_analyzed = 8] and the method
    ["rgb_mapping"]. *)
Theorem analyze_thermal_colors_decoded (img : image) (random : nat -> float) :
  rectangular img ->
  analyze_thermal_colors (Ok img) random =
    {| temperatures := map (fun p => tile_temp img (fst p) (snd p)) positions;
       color_data := {| zones_analyzed := 8;
                        method := "rgb_mapping";
                        error := None |} |}.
Proof.
  intros R. unfold analyze_thermal_colors, rgb_mapping. cbn [bind].
  f_equal. cbn [seq flat_map map app positions fst snd].
  rewrite !zone_temp_tile by (auto; lia). reflexivity.
Qed.

Lemma image_orange_rectangular : rectangular image_orange.
Proof. repeat constructor. Qed.

Lemma analyze_thermal_colors_decoded_witness :
  rectangular image_orange /\
  temperatures (analyze_thermal_colors (Ok image_orange) draws_099)
  = map (fun p => tile_temp image_orange (fst p) (snd p)) positions.
Proof.
  split; [exact image_orange_rectangular|].
  rewrite (analyze_thermal_colors_decoded image_orange draws_099 image_orange_rectangular).
  reflexivity.
Defined.

(** Where C6 fails as stated: on the image of colour (10, 8, 0) the mean
    green equals 0.8 times the mean red, the code leaves the 34.2 of the
    red channel while the specification's test [>=] takes 0.5 off, and the
    method tag is not ["color-mapping"]. *)
Lemma orange_tiles_not_corrected :
  temperatures (analyze_thermal_colors (Ok image_orange) draws_099)
    = repeat (dec 342 1) 8 /\
  map (fun p => spec_tile_temp image_orange (fst p) (snd p)) positions
    = repeat (dec 337 1) 8 /\
  temperatures (analyze_thermal_colors (Ok image_orange) draws_099)
    <> map (fun p => spec_tile_temp image_orange (fst p) (snd p)) positions /\
  method (color_data (analyze_thermal_colors (Ok image_orange) draws_099))
    <> spec_method.
Proof.
  split; [vm_compute; reflexivity|].
  split; [vm_compute; reflexivity|].
  split; vm_compute; discriminate.
Qed.

(** C5, as the code has it.  Whatever the input, the extractor returns
    eight temperatures and [zones_analyzed = 8]; when decoding raises, the
    result is the simulated one: method ["simulated"], the text of the
    exception under ["error"], and eight values
    [round(36.0 + u * 1.5, 1)], each between 36.0 and 37.5 with both bounds
    included. *)
Theorem analyze_thermal_colors_total (opened : result image) (random : nat -> float) :
  (List.length (temperatures (analyze_thermal_colors opened random)) = 8%nat /\
   zones_analyzed (color_data (analyze_thermal_colors opened random)) = 8) /\
  forall e : exn,
    opened = Raise e ->
    (forall i, unit_draw (random i)) ->
    method (color_data (analyze_thermal_colors opened random)) = "simulated" /\
    error (color_data (analyze_thermal_colors opened random)) = Some (exn_str e) /\
    temperatures (analyze_thermal_colors opened random)
      = map (fun i => py_round (fadd (dec 360 1) (fmul (random i) (dec 15 1))) 1)
            (seq 0 8) /\
    Forall in_36_375 (temperatures (analyze_thermal_colors opened random)).
Proof.
  split.
  - destruct opened as [img|e]; split; reflexivity.
  - intros e -> Hdraw. cbn [analyze_thermal_colors bind simulated color_data method error
                            temperatures].
    repeat split.
    apply Forall_map, Forall_forall. intros i _.
    destruct (Hdraw i) as [Fi Bi].
    apply simulated_temperature_bounds; assumption.
Qed.

Lemma draws_099_unit : forall i, unit_draw (draws_099 i).
Proof.
  intros i. split; [reflexivity|].
  split; [vm_compute; discriminate|vm_compute; reflexivity].
Qed.

Lemma analyze_thermal_colors_total_witness :
  (forall i, unit_draw (draws_099 i)) /\
  Forall in_36_375 (temperatures (analyze_thermal_colors (Raise decode_error) draws_099)).
Proof.
  split; [exact draws_099_unit|].
  apply (proj2 (analyze_thermal_colors_total (Raise decode_error) draws_099)
           decode_error eq_refl draws_099_unit).
Defined.

(** Where C5 fails as stated: with draws of 0.99 the simulated values are
    37.5, the excluded end of the interval [[36.0, 37.5)]. *)
Lemma simulated_value_37_5 :
  unit_draw (draws_099 0) /\
  temperatures (analyze_thermal_colors (Raise decode_error) draws_099)
    = repeat (dec 375 1) 8 /\
  ~ (B2Q (dec 375 1) < 375 # 10)%Q.
Proof.
  split; [apply draws_099_unit|].
  split; [vm_compute; reflexivity|].
  vm_compute. discriminate.
Qed.

End Extractor.

(** ** Inputs of the analyzer that are not eight numbers *)

Lemma py_truediv_nonzero (x : float) (n : Z) :
  n <> 0 -> py_truediv x n = Ok (fdiv x (of_Z n)).
Proof.
  intros H. unfold py_truediv. destruct (Z.eqb_spec n 0); [contradiction|reflexivity].
Qed.

Lemma py_max_nonempty (xs : list float) :
  xs <> [] -> exists m, py_max xs = Ok m.
Proof. destruct xs; [congruence|]. intros _. eexists. reflexivity. Qed.

Lemma py_min_nonempty (xs : list float) :
  xs <> [] -> exists m, py_min xs = Ok m.
Proof. destruct xs; [congruence|]. intros _. eexists. reflexivity. Qed.

(** X1. [calculate_metrics] does not check the number of readings: it
    returns as soon as there are five of them, and with four or fewer the
    division by the length of an empty side raises [ZeroDivisionError]. *)
Theorem calculate_metrics_length (impl : sum_impl) (temps : list float) :
  match AnalyzerService.calculate_metrics impl temps with
  | Ok _ => (5 <= List.length temps)%nat
  | Raise e => exn_cls e = ZeroDivisionError /\ (List.length temps <= 4)%nat
  end.
Proof.
  destruct temps as [|a [|b [|c [|d [|x rest]]]]];
    try (cbn; split; [reflexivity|lia]).
  unfold AnalyzerService.calculate_metrics.
  assert (L : slice 0 4 (a :: b :: c :: d :: x :: rest) = [a; b; c; d]) by reflexivity.
  rewrite L.
  rewrite (py_truediv_nonzero _ (py_len [a; b; c; d])) by (cbn; lia).
  cbn [bind].
  assert (R : exists y ys, slice 4 8 (a :: b :: c :: d :: x :: rest) = y :: ys).
  { exists x, (firstn 3 rest). reflexivity. }
  destruct R as (y & ys & R). rewrite R.
  rewrite (py_truediv_nonzero _ (py_len (y :: ys))) by (unfold py_len; cbn [List.length]; lia).
  cbn [bind].
  rewrite (py_truediv_nonzero _ 2) by lia. cbn [bind py_max py_min].
  cbn [List.length]. lia.
Qed.

(** X2. Readings after the eighth do not enter the side averages, the
    total average or the asymmetry, which are those of the first eight;
    the maximum and the minimum are taken over all the readings. *)
Theorem calculate_metrics_extra_readings (impl : sum_impl)
  (temps extra : list float) (m : Metrics) :
  List.length temps = 8%nat ->
  AnalyzerService.calculate_metrics impl temps = Ok m ->
  exists m' mx mn,
    AnalyzerService.calculate_metrics impl (temps ++ extra) = Ok m' /\
    avg_left m' = avg_left m /\ avg_right m' = avg_right m /\
    avg_total m' = avg_total m /\ asymmetry m' = asymmetry m /\
    py_max (temps ++ extra) = Ok mx /\ max_temp m' = py_round mx 2 /\
    py_min (temps ++ extra) = Ok mn /\ min_temp m' = py_round mn 2.
Proof.
  intros Hlen.
  destruct (length_8_inv temps Hlen) as (a & b & c & d & e & f & g & h & ->).
  unfold AnalyzerService.calculate_metrics.
  change (slice 0 4 ([a; b; c; d; e; f; g; h] ++ extra)) with [a; b; c; d].
  change (slice 4 8 ([a; b; c; d; e; f; g; h] ++ extra)) with [e; f; g; h].
  change (slice 0 4 [a; b; c; d; e; f; g; h]) with [a; b; c; d].
  change (slice 4 8 [a; b; c; d; e; f; g; h]) with [e; f; g; h].
  rewrite !(py_truediv_nonzero _ (py_len _)) by (cbn; lia).
  cbn [bind]. rewrite !(py_truediv_nonzero _ 2) by lia.
  cbn [bind]. intros H. inversion H; subst m; clear H.
  cbn [app py_max py_min bind].
  do 3 eexists. cbn [avg_left avg_right avg_total asymmetry max_temp min_temp].
  repeat split; reflexivity.
Qed.

Lemma calculate_metrics_extra_readings_witness :
  exists m' mx mn,
    AnalyzerService.calculate_metrics NaiveSum (Sample.reading_normal ++ [dec 400 1]) = Ok m' /\
    avg_left m' = dec 364 1 /\ avg_right m' = dec 3685 2 /\
    avg_total m' = dec 3662 2 /\ asymmetry m' = dec 45 2 /\
    py_max (Sample.reading_normal ++ [dec 400 1]) = Ok mx /\ max_temp m' = py_round mx 2 /\
    py_min (Sample.reading_normal ++ [dec 400 1]) = Ok mn /\ min_temp m' = py_round mn 2.
Proof.
  exact (calculate_metrics_extra_readings NaiveSum Sample.reading_normal [dec 400 1]
           {| avg_left := dec 364 1; avg_right := dec 3685 2; avg_total := dec 3662 2;
              asymmetry := dec 45 2; max_temp := dec 370 1; min_temp := dec 363 1 |}
           eq_refl ltac:(vm_compute; reflexivity)).
Defined.

(** ** Zones outside the table of names *)

Lemma getitem_zone_names_out (i : nat) :
  (8 <= i)%nat ->
  getitem AnalyzerService.zone_names i = Raise (Exn IndexError "list index out of range").
Proof.
  intros H. unfold getitem.
  assert (E : nth_error AnalyzerService.zone_names i = None).
  { apply nth_error_None. cbn. lia. }
  now rewrite E.
Qed.

Lemma for_each_zone_step_outcome (avg : float) (l : list float) (k : nat)
  (acc : list string) :
  match AnalyzerService.for_each (AnalyzerService.zone_step avg) (enumerate_from k l) acc with
  | Ok zones => (List.length zones <= List.length acc + List.length l)%nat
  | Raise e => exn_cls e = IndexError /\ (8 < k + List.length l)%nat
  end.
Proof.
  revert k acc. induction l as [|x l IH]; intros k acc.
  - cbn. lia.
  - cbn [enumerate_from AnalyzerService.for_each List.length].
    unfold AnalyzerService.zone_step at 1.
    destruct (fgt (fsub x avg) AnalyzerService.margin).
    + destruct (Nat.lt_ge_cases k 8) as [Hk|Hk].
      * rewrite nth_error_zone_names by exact Hk. cbn [bind].
        specialize (IH (S k) (acc ++ [AnalyzerService.zone_entry (nth k AnalyzerService.zone_names "") (fsub x avg)])%list).
        destruct (AnalyzerService.for_each _ _ _) as [zs|e].
        -- rewrite length_app in IH. cbn [List.length] in IH. lia.
        -- destruct IH. split; [assumption|lia].
      * rewrite getitem_zone_names_out by exact Hk. cbn [bind exn_cls]. split; [reflexivity|lia].
    + cbn [bind]. specialize (IH (S k) acc).
      destruct (AnalyzerService.for_each _ _ _) as [zs|e].
      * lia.
      * destruct IH. split; [assumption|lia].
Qed.

(** X3. The outcomes of [find_anomaly_zones] by the number of readings:
    it returns for one to eight readings, with at most one entry per
    reading; an empty list raises [ZeroDivisionError]; the only other
    exception is the [IndexError] of the table of names, on more than
    eight readings. *)
Theorem find_anomaly_zones_outcome (impl : sum_impl) (temps : list float) :
  match AnalyzerService.find_anomaly_zones impl temps with
  | Ok zones => temps <> [] /\ (List.length zones <= List.length temps)%nat
  | Raise e =>
      (temps = [] /\ exn_cls e = ZeroDivisionError) \/
      ((8 < List.length temps)%nat /\ exn_cls e = IndexError)
  end.
Proof.
  unfold AnalyzerService.find_anomaly_zones.
  destruct temps as [|x temps]; [cbn; left; split; reflexivity|].
  rewrite py_truediv_mean by discriminate. cbn [bind]. unfold enumerate.
  pose proof (for_each_zone_step_outcome (Spec.mean impl (x :: temps)) (x :: temps) 0 []) as H.
  destruct (AnalyzerService.for_each _ _ _) as [zs|e].
  - split; [discriminate|]. cbn [List.length] in *. lia.
  - right. destruct H. split; [lia|assumption].
Qed.

Lemma for_each_zone_step_raises (avg : float) (l : list float) (k i : nat)
  (t : float) (acc : list string) :
  nth_error l i = Some t -> (8 <= k + i)%nat ->
  fgt (fsub t avg) AnalyzerService.margin = true ->
  exists e,
    AnalyzerService.for_each (AnalyzerService.zone_step avg) (enumerate_from k l) acc = Raise e
    /\ exn_cls e = IndexError.
Proof.
  revert k i acc. induction l as [|x l IH]; intros k i acc Hi Hk Ht.
  - destruct i; discriminate.
  - cbn [enumerate_from AnalyzerService.for_each].
    unfold AnalyzerService.zone_step at 1.
    destruct i as [|i].
    + cbn in Hi. inversion Hi; subst x. rewrite Ht.
      rewrite getitem_zone_names_out by lia. cbn [bind]. eexists. split; reflexivity.
    + cbn [nth_error] in Hi.
      destruct (fgt (fsub x avg) AnalyzerService.margin).
      * destruct (Nat.lt_ge_cases k 8) as [Hk8|Hk8].
        -- rewrite nth_error_zone_names by exact Hk8. cbn [bind].
           apply (IH (S k) i); auto; lia.
        -- rewrite getitem_zone_names_out by exact Hk8. cbn [bind].
           eexists. split; reflexivity.
      * cbn [bind]. apply (IH (S k) i); auto; lia.
Qed.

(** X4. A reading past the eighth that lies more than 0.8 above the mean
    of all the readings has no name in the table: [find_anomaly_zones]
    raises [IndexError]. *)
Theorem find_anomaly_zones_ninth_zone (impl : sum_impl) (temps : list float)
  (i : nat) (t : float) :
  nth_error temps i = Some t -> (8 <= i)%nat ->
  fgt (Spec.deviation impl temps t) AnalyzerService.margin = true ->
  exists e, AnalyzerService.find_anomaly_zones impl temps = Raise e
            /\ exn_cls e = IndexError.
Proof.
  intros Hi H8 Ht. unfold AnalyzerService.find_anomaly_zones.
  assert (Hne : List.length temps <> 0%nat).
  { destruct temps; [destruct i; discriminate|discriminate]. }
  rewrite py_truediv_mean by exact Hne. cbn [bind]. unfold enumerate.
  apply (for_each_zone_step_raises _ temps 0 i t); auto.
Qed.

Lemma find_anomaly_zones_ninth_zone_witness :
  exists e, AnalyzerService.find_anomaly_zones NaiveSum
              (Sample.reading_normal ++ [dec 400 1]) = Raise e
            /\ exn_cls e = IndexError.
Proof.
  apply (find_anomaly_zones_ninth_zone NaiveSum
           (Sample.reading_normal ++ [dec 400 1]) 8 (dec 400 1)).
  - reflexivity.
  - lia.
  - vm_compute. reflexivity.
Defined.

(** ** Readings that are not numbers *)

Lemma fadd_nan_l (x : float) : fadd S754_nan x = S754_nan.
Proof. reflexivity. Qed.

Lemma fadd_nan_r (x : float) : fadd x S754_nan = S754_nan.
Proof. now destruct x. Qed.

Lemma fsub_nan_r (x : float) : fsub x S754_nan = S754_nan.
Proof. now destruct x. Qed.

Lemma fdiv_nan_l (x : float) : fdiv S754_nan x = S754_nan.
Proof. reflexivity. Qed.

Lemma fgt_nan_l (x : float) : fgt S754_nan x = false.
Proof. now destruct x as [[|]|[|]| |[|] m e]. Qed.

Lemma fge_nan_l (x : float) : fge S754_nan x = false.
Proof. now destruct x as [[|]|[|]| |[|] m e]. Qed.

Lemma fgt_nan_r (x : float) : fgt x S754_nan = false.
Proof. reflexivity. Qed.

Lemma flt_nan_r (x : float) : flt x S754_nan = false.
Proof. now destruct x as [[|]|[|]| |[|] m e]. Qed.

Lemma fold_left_fadd_nan (xs : list float) : fold_left fadd xs S754_nan = S754_nan.
Proof. induction xs as [|x xs IH]; [reflexivity|exact IH]. Qed.

Lemma neumaier_nan (c : float) (xs : list float) : neumaier S754_nan c xs = S754_nan.
Proof.
  revert c. induction xs as [|x xs IH]; intros c.
  - cbn. destruct (negb (is_zero c) && is_finite c); reflexivity.
  - cbn [neumaier]. rewrite fadd_nan_l. apply IH.
Qed.

Lemma neumaier_nan_in (f c : float) (xs : list float) :
  In S754_nan xs -> neumaier f c xs = S754_nan.
Proof.
  revert f c. induction xs as [|x xs IH]; intros f c; [intros []|].
  intros [->|H]; cbn [neumaier].
  - rewrite fadd_nan_r. apply neumaier_nan.
  - now apply IH.
Qed.

(** One NaN among the summands makes the sum NaN. *)
Lemma py_sum_nan (impl : sum_impl) (xs : list float) :
  In S754_nan xs -> py_sum impl xs = S754_nan.
Proof.
  intros H. destruct impl; unfold py_sum.
  - generalize pzero. induction xs as [|x xs IH]; [destruct H|].
    intros acc. destruct H as [->|H]; cbn [fold_left].
    + rewrite fadd_nan_r. apply fold_left_fadd_nan.
    + now apply IH.
  - destruct xs as [|x xs]; [destruct H|]. destruct H as [->|H].
    + apply neumaier_nan.
    + now apply neumaier_nan_in.
Qed.

Lemma for_each_zone_step_nan (l : list float) (k : nat) (acc : list string) :
  AnalyzerService.for_each (AnalyzerService.zone_step S754_nan) (enumerate_from k l) acc
  = Ok acc.
Proof.
  revert k acc. induction l as [|x l IH]; intros k acc; [reflexivity|].
  cbn [enumerate_from AnalyzerService.for_each].
  unfold AnalyzerService.zone_step at 1.
  rewrite fsub_nan_r, fgt_nan_l. cbn [bind]. apply IH.
Qed.

(** X5. One NaN among the readings, of whatever number, silences
    [find_anomaly_zones]: the mean is NaN, no deviation compares above
    0.8, and the list of zones is empty. *)
Theorem find_anomaly_zones_nan (impl : sum_impl) (temps : list float) :
  In S754_nan temps -> AnalyzerService.find_anomaly_zones impl temps = Ok [].
Proof.
  intros H. unfold AnalyzerService.find_anomaly_zones.
  rewrite py_truediv_mean by (destruct temps; [destruct H|discriminate]).
  unfold Spec.mean. rewrite py_sum_nan by exact H. rewrite fdiv_nan_l.
  cbn [bind]. apply for_each_zone_step_nan.
Qed.

Lemma find_anomaly_zones_nan_witness :
  AnalyzerService.find_anomaly_zones NeumaierSum
    (dec 450 1 :: S754_nan :: Sample.reading_high) = Ok [].
Proof.
  apply (find_anomaly_zones_nan NeumaierSum (dec 450 1 :: S754_nan :: Sample.reading_high)).
  right. left. reflexivity.
Defined.

Lemma fold_max_nan (xs : list float) :
  fold_left (fun m y => if fgt y m then y else m) xs S754_nan = S754_nan.
Proof.
  induction xs as [|x xs IH]; [reflexivity|]. cbn [fold_left].
  rewrite fgt_nan_r. exact IH.
Qed.

(** X6. A NaN in the first reading hides the others: the left average,
    the asymmetry and the maximum are NaN, and [classify_risk] on these
    metrics gives NORMAL with no description, however hot the other
    zones are. *)
Theorem nan_first_reading_is_normal (impl : sum_impl) (rest : list float) :
  (4 <= List.length rest)%nat ->
  exists m,
    AnalyzerService.calculate_metrics impl (S754_nan :: rest) = Ok m /\
    asymmetry m = S754_nan /\ max_temp m = S754_nan /\
    AnalyzerService.classify_risk (asymmetry m) (max_temp m) = (NORMAL, []).
Proof.
  intros Hlen.
  destruct rest as [|b [|c [|d [|x rest]]]]; cbn [List.length] in Hlen; try lia.
  unfold AnalyzerService.calculate_metrics.
  change (slice 0 4 (S754_nan :: b :: c :: d :: x :: rest)) with [S754_nan; b; c; d].
  rewrite (py_sum_nan impl [S754_nan; b; c; d]) by (left; reflexivity).
  rewrite (py_truediv_nonzero _ (py_len [S754_nan; b; c; d])) by (cbn; lia).
  cbn [bind]. rewrite fdiv_nan_l.
  change (slice 4 8 (S754_nan :: b :: c :: d :: x :: rest)) with (x :: firstn 3 rest).
  rewrite (py_truediv_nonzero _ (py_len (x :: firstn 3 rest)))
    by (unfold py_len; cbn [List.length]; lia).
  cbn [bind]. rewrite (py_truediv_nonzero _ 2) by lia.
  cbn [bind py_max py_min]. rewrite fold_max_nan.
  eexists. split; [reflexivity|].
  cbn [asymmetry max_temp]. repeat split.
Qed.

Lemma nan_first_reading_is_normal_witness :
  exists m,
    AnalyzerService.calculate_metrics NaiveSum
      (S754_nan :: repeat (dec 420 1) 7) = Ok m /\
    asymmetry m = S754_nan /\ max_temp m = S754_nan /\
    AnalyzerService.classify_risk (asymmetry m) (max_temp m) = (NORMAL, []).
Proof.
  apply (nan_first_reading_is_normal NaiveSum (repeat (dec 420 1) 7)).
  cbn. lia.
Defined.

(** ** The clients of the conclusion service *)

Section Clients.
Import LLMService Providers ServiceState.

Variable w : world.
Variables (metrics : Metrics) (risk_level : RiskLevel) (anomalies : list string).

Lemma kept_refl (self : t) : kept self self.
Proof. repeat split; auto. Qed.

Lemma kept_trans (a b c : t) : kept a b -> kept b c -> kept a c.
Proof.
  intros (A1 & A2 & A3 & A4) (B1 & B2 & B3 & B4).
  repeat split; try congruence; auto.
Qed.

Lemma get_openai_client_kept (self : t) :
  kept self (snd (_get_openai_client w self)).
Proof.
  unfold _get_openai_client, mbind, get, put, ret, raise.
  destruct (openai_client self) eqn:E; [apply kept_refl|].
  destruct (truthy (openai_key self)); [|apply kept_refl].
  destruct (openai_init w (openai_key self)) as [c|e].
  - cbn [snd]. repeat split; cbn; auto. intros c'. congruence.
  - destruct (is_ImportError e); apply kept_refl.
Qed.

Lemma get_gemini_model_kept (self : t) :
  kept self (snd (_get_gemini_model w self)).
Proof.
  unfold _get_gemini_model, mbind, get, put, ret, raise.
  destruct (gemini_model self) eqn:E; [apply kept_refl|].
  destruct (truthy (gemini_key self)); [|apply kept_refl].
  destruct (gemini_init w (gemini_key self)) as [c|e].
  - cbn [snd]. repeat split; cbn; auto. intros c'. congruence.
  - destruct (is_ImportError e); apply kept_refl.
Qed.

Lemma generate_conclusion_openai_kept (self : t) :
  kept self (snd (generate_conclusion_openai w metrics risk_level anomalies self)).
Proof.
  unfold generate_conclusion_openai, mbind.
  pose proof (get_openai_client_kept self) as K.
  destruct (_get_openai_client w self) as [[[[c|]|e]|name] self']; exact K.
Qed.

Lemma generate_conclusion_gemini_kept (self : t) :
  kept self (snd (generate_conclusion_gemini w metrics risk_level anomalies self)).
Proof.
  unfold generate_conclusion_gemini, mbind.
  pose proof (get_gemini_model_kept self) as K.
  destruct (_get_gemini_model w self) as [[[[c|]|e]|name] self']; exact K.
Qed.

Lemma if_result_kept (r : option string) (k : M string) (self : t) :
  kept self (snd (k self)) -> kept self (snd (if_result r k self)).
Proof.
  intros H. unfold if_result, ret.
  destruct r as [s|]; [destruct (truthy s)|]; auto using kept_refl.
Qed.

Lemma gemini_part_kept (self : t) :
  kept self
    (snd (mbind get (fun self0 =>
            if truthy (gemini_key self0) then
              mbind (generate_conclusion_gemini w metrics risk_level anomalies)
                (fun result => if_result result
                   (ret (_generate_rule_based metrics risk_level anomalies)))
            else ret (_generate_rule_based metrics risk_level anomalies)) self)).
Proof.
  unfold mbind at 1, get.
  destruct (truthy (gemini_key self)); [|apply kept_refl].
  unfold mbind.
  pose proof (generate_conclusion_gemini_kept self) as K.
  destruct (generate_conclusion_gemini w metrics risk_level anomalies self)
    as [[[r|e]|name] s1]; cbn [snd] in K; [|exact K|exact K].
  eapply kept_trans; [exact K|]. apply if_result_kept, kept_refl.
Qed.

(** X9. A call never changes the two keys of the service and never drops
    or replaces a client it holds: each client is built at most once. *)
Theorem generate_conclusion_keeps_clients (self : t) :
  let self' := snd (generate_conclusion w metrics risk_level anomalies self) in
  openai_key self' = openai_key self /\
  gemini_key self' = gemini_key self /\
  (forall c, openai_client self = Some c -> openai_client self' = Some c) /\
  (forall c, gemini_model self = Some c -> gemini_model self' = Some c).
Proof.
  change (kept self (snd (generate_conclusion w metrics risk_level anomalies self))).
  unfold generate_conclusion. unfold mbind at 1, get at 1.
  destruct (truthy (openai_key self)); [|apply gemini_part_kept].
  unfold mbind at 1.
  pose proof (generate_conclusion_openai_kept self) as K.
  destruct (generate_conclusion_openai w metrics risk_level anomalies self)
    as [[[r|e]|name] s1]; cbn [snd] in K; [|exact K|exact K].
  eapply kept_trans; [exact K|].
  apply if_result_kept, gemini_part_kept.
Qed.

(** X10. The answer of OpenAI comes first: when it is a non-empty text,
    that text is returned and Gemini is not touched, its model is neither
    built nor called. *)
Theorem generate_conclusion_openai_first (self : t) (c : client) (text : string) :
  truthy (openai_key self) = true ->
  openai_handle w self = Ok (Some c) ->
  openai_chat w c (_build_prompt metrics risk_level anomalies) = Ok (Some text) ->
  truthy text = true ->
  fst (generate_conclusion w metrics risk_level anomalies self) = Ok text /\
  gemini_model (snd (generate_conclusion w metrics risk_level anomalies self))
  = gemini_model self.
Proof.
  intros Hk Hh Hc Ht. split.
  - rewrite generate_conclusion_stages, Hk, Hh, Hc. cbn [after_call]. now rewrite Ht.
  - unfold generate_conclusion. unfold mbind at 1, get at 1. rewrite Hk.
    unfold mbind at 1.
    pose proof (generate_conclusion_openai_spec w metrics risk_level anomalies self) as S.
    pose proof (openai_attempt_state w metrics risk_level anomalies self) as [_ K].
    rewrite Hh, Hc in S. cbn [guarded] in S.
    destruct (generate_conclusion_openai w metrics risk_level anomalies self)
      as [[[r|e]|name] s1]; cbn [fst snd] in S, K; [|discriminate|discriminate].
    inversion S; subst r. unfold if_result. rewrite Ht. exact K.
Qed.

(** X11. Once the OpenAI client is held, the constructor plays no part:
    two worlds that differ in the constructor only give the same result. *)
Theorem generate_conclusion_cached_client (w' : world) (self : t) (c : client) :
  openai_client self = Some c ->
  openai_chat w' = openai_chat w ->
  gemini_init w' = gemini_init w ->
  gemini_generate w' = gemini_generate w ->
  fst (generate_conclusion w' metrics risk_level anomalies self)
  = fst (generate_conclusion w metrics risk_level anomalies self).
Proof.
  intros Hc E1 E2 E3. rewrite !generate_conclusion_stages.
  unfold openai_handle, gemini_stage, gemini_handle. rewrite Hc, E1, E2, E3.
  reflexivity.
Qed.

End Clients.

Lemma generate_conclusion_returns_witness :
  exists text,
    fst (LLMService.generate_conclusion Providers.world_calls_fail Sample.metrics_warm ELEVATED
           Sample.anomalies_warm Providers.service_both) = Ok text.
Proof.
  apply (generate_conclusion_returns Providers.world_calls_fail Sample.metrics_warm ELEVATED
           Sample.anomalies_warm Providers.service_both).
  - split; reflexivity.
  - intros c name. split; discriminate.
Defined.

Lemma generate_conclusion_fallback_witness :
  fst (LLMService.generate_conclusion Providers.world_calls_fail Sample.metrics_warm ELEVATED
         Sample.anomalies_warm Providers.service_both)
  = Ok (LLMService._generate_rule_based Sample.metrics_warm ELEVATED Sample.anomalies_warm).
Proof.
  apply (generate_conclusion_fallback Providers.world_calls_fail Sample.metrics_warm ELEVATED
           Sample.anomalies_warm Providers.service_both).
  - right. right. exists (LLMService.Client "sk-test"). split; [reflexivity|exact I].
  - right. right. exists (LLMService.Client "g-test"). split; reflexivity.
Defined.

Lemma generate_conclusion_lets_escape_witness :
  fst (LLMService.generate_conclusion Providers.world_cancelled Sample.metrics_warm
         ELEVATED Sample.anomalies_warm Providers.service_both)
  = Escapes "CancelledError".
Proof.
  apply (generate_conclusion_lets_escape Providers.world_cancelled Sample.metrics_warm
           ELEVATED Sample.anomalies_warm Providers.service_both
           (LLMService.Client "g-test") "CancelledError").
  - right. right. exists (LLMService.Client "sk-test"). split; [reflexivity|exact I].
  - reflexivity.
  - reflexivity.
  - reflexivity.
Defined.

Lemma generate_conclusion_keeps_clients_witness :
  LLMService.openai_client
    (snd (LLMService.generate_conclusion Providers.world_broken_constructor
            Sample.metrics_warm ELEVATED Sample.anomalies_warm
            {| LLMService.openai_key := "sk-test"; LLMService.gemini_key := "";
               LLMService.openai_client := Some (LLMService.Client "sk-test");
               LLMService.gemini_model := None |}))
  = Some (LLMService.Client "sk-test").
Proof.
  exact (proj1 (proj2 (proj2
           (generate_conclusion_keeps_clients Providers.world_broken_constructor
              Sample.metrics_warm ELEVATED Sample.anomalies_warm
              {| LLMService.openai_key := "sk-test"; LLMService.gemini_key := "";
                 LLMService.openai_client := Some (LLMService.Client "sk-test");
                 LLMService.gemini_model := None |})))
           (LLMService.Client "sk-test") eq_refl).
Defined.

Lemma generate_conclusion_openai_first_witness :
  fst (LLMService.generate_conclusion
         {| LLMService.openai_init := fun key => Ok (LLMService.Client key);
            LLMService.openai_chat := fun _ _ => Ok (Some "ok");
            LLMService.gemini_init := fun _ => Raise Providers.constructor_error;
            LLMService.gemini_generate := fun _ _ => Ok None |}
         Sample.metrics_warm ELEVATED Sample.anomalies_warm Providers.service_both)
  = Ok "ok".
Proof.
  refine (proj1 (generate_conclusion_openai_first _ Sample.metrics_warm ELEVATED
                   Sample.anomalies_warm Providers.service_both
                   (LLMService.Client "sk-test") "ok" _ _ _ _)); reflexivity.
Defined.

Lemma generate_conclusion_cached_client_witness :
  fst (LLMService.generate_conclusion Providers.world_broken_constructor
         Sample.metrics_warm ELEVATED Sample.anomalies_warm
         {| LLMService.openai_key := "sk-test"; LLMService.gemini_key := "";
            LLMService.openai_client := Some (LLMService.Client "sk-test");
            LLMService.gemini_model := None |})
  = fst (LLMService.generate_conclusion
           {| LLMService.openai_init := fun key => Ok (LLMService.Client key);
              LLMService.openai_chat := fun _ _ => Ok None;
              LLMService.gemini_init := fun _ => Raise (Exn ImportError "No module named 'google'");
              LLMService.gemini_generate := fun _ _ => Ok None |}
           Sample.metrics_warm ELEVATED Sample.anomalies_warm
           {| LLMService.openai_key := "sk-test"; LLMService.gemini_key := "";
              LLMService.openai_client := Some (LLMService.Client "sk-test");
              LLMService.gemini_model := None |}).
Proof.
  apply (generate_conclusion_cached_client _ Sample.metrics_warm ELEVATED
           Sample.anomalies_warm Providers.world_broken_constructor _
           (LLMService.Client "sk-test")); reflexivity.
Defined.

(** ** The rule-based text of the conclusion service *)

Lemma prefix_occurs (t s : string) :
  String.prefix t s = true -> exists post, s = t ++ post.
Proof.
  revert s. induction t as [|c t IH]; intros s H.
  - exists s. reflexivity.
  - destruct s as [|c' s]; [discriminate|]. cbn in H.
    destruct (ascii_dec c c') as [->|]; [|discriminate].
    destruct (IH s H) as [post ->]. exists post. reflexivity.
Qed.

Lemma contains_occurs (t s : string) :
  contains t s = true -> Text.occurs_in t s.
Proof.
  induction s as [|c s IH]; cbn [contains].
  - destruct (String.prefix t "") eqn:P; [|discriminate]. intros _.
    destruct (prefix_occurs _ _ P) as [post E]. exists "", post. exact E.
  - destruct (String.prefix t (String c s)) eqn:P.
    + intros _. destruct (prefix_occurs _ _ P) as [post E]. exists "", post. exact E.
    + intros H. destruct (IH H) as (pre & post & ->).
      exists (String c pre), post. reflexivity.
Qed.

Lemma occurs_value (v lit tail u : string) :
  String.prefix u lit = true -> Text.occurs_in (v ++ u) (v ++ lit ++ tail).
Proof.
  intros H. destruct (prefix_occurs _ _ H) as [post ->].
  exists "", (post ++ tail). cbn [append]. now rewrite !append_assoc.
Qed.

Lemma occurs_framed (a x lit tail u : string) :
  String.prefix u lit = true ->
  Text.occurs_in (a ++ x ++ u) (a ++ x ++ lit ++ tail).
Proof.
  intros H. destruct (prefix_occurs _ _ H) as [post ->].
  exists "", (post ++ tail). cbn [append]. now rewrite !append_assoc.
Qed.

Ltac find_value :=
  first [ apply occurs_value; reflexivity
        | apply occurs_framed; reflexivity
        | apply occurs_in_app_r; find_value ].

(** X12. The rule-based text of the conclusion service: every level
    carries a sentence on the limits of the system; the ELEVATED and HIGH
    texts name the anomalies joined by commas, or a stock phrase when the
    list is empty; the NORMAL text shows both side averages and the
    asymmetry, the ELEVATED text the two side averages, the HIGH text the
    asymmetry and the maximum. *)
Theorem rule_based_texts (metrics : Metrics) (anomalies : list string) :
  let text := fun level => LLMService._generate_rule_based metrics level anomalies in
  (forall level, Text.occurs_in "Данная система" (text level)) /\
  Text.occurs_in "не заменяет консультацию врача-маммолога." (text NORMAL) /\
  Text.occurs_in "не является медицинским диагностическим устройством." (text ELEVATED) /\
  Text.occurs_in "НЕ заменяет профессиональную медицинскую диагностику." (text HIGH) /\
  Text.occurs_in
    ("Выявлено: " ++ Fallback.anomaly_text "незначительная асимметрия" anomalies ++ ". ")
    (text ELEVATED) /\
  Text.occurs_in
    ("Выявлено: " ++ Fallback.anomaly_text "значительная температурная асимметрия" anomalies ++ ". ")
    (text HIGH) /\
  (Text.occurs_in (float_repr (avg_left metrics) ++ "°C") (text NORMAL) /\
   Text.occurs_in (float_repr (avg_right metrics) ++ "°C") (text NORMAL) /\
   Text.occurs_in (float_repr (asymmetry metrics) ++ "°C") (text NORMAL)) /\
  (Text.occurs_in (float_repr (avg_left metrics) ++ "°C") (text ELEVATED) /\
   Text.occurs_in (float_repr (avg_right metrics) ++ "°C") (text ELEVATED)) /\
  (Text.occurs_in (float_repr (asymmetry metrics) ++ "°C") (text HIGH) /\
   Text.occurs_in (float_repr (max_temp metrics) ++ "°C") (text HIGH)).
Proof.
  intros text.
  assert (A : forall a b c : string, a ++ b ++ c = (a ++ b) ++ c)
    by (intros; now rewrite append_assoc).
  assert (EN : exists t0 : string, text NORMAL = t0 ++
     "Рекомендуется продолжать регулярный мониторинг. Данная система является "
      ++ "вспомогательным инструментом и не заменяет консультацию врача-маммолога.").
  { eexists. unfold text, LLMService._generate_rule_based.
    rewrite !A. reflexivity. }
  assert (EE : exists t0 : string, text ELEVATED = t0 ++
     "Данная система не является медицинским диагностическим устройством.").
  { eexists. unfold text, LLMService._generate_rule_based.
    rewrite !A. reflexivity. }
  assert (EH : exists t0 : string, text HIGH = t0 ++
     "Данная система является вспомогательным скрининговым инструментом и НЕ заменяет "
      ++ "профессиональную медицинскую диагностику. Не откладывайте визит к специалисту.").
  { eexists. unfold text, LLMService._generate_rule_based.
    rewrite !A. reflexivity. }
  split.
  { intros [| |]; [destruct EN as [t0 ->]|destruct EE as [t0 ->]|destruct EH as [t0 ->]];
      apply occurs_in_app_r, contains_occurs; vm_compute; reflexivity. }
  split.
  { destruct EN as [t0 ->]. apply occurs_in_app_r, contains_occurs. vm_compute. reflexivity. }
  split.
  { destruct EE as [t0 ->]. apply occurs_in_app_r, contains_occurs. vm_compute. reflexivity. }
  split.
  { destruct EH as [t0 ->]. apply occurs_in_app_r, contains_occurs. vm_compute. reflexivity. }
  clear EN EE EH.
  unfold text, LLMService._generate_rule_based.
  fold (Fallback.anomaly_text "незначительная асимметрия" anomalies).
  fold (Fallback.anomaly_text "значительная температурная асимметрия" anomalies).
  repeat split; find_value.
Qed.

(** X13. The prompt sent to a provider carries the four metrics, the
    name of the risk level and the anomalies joined by commas, [нет] when
    there is none. *)
Theorem build_prompt_data (metrics : Metrics) (risk_level : RiskLevel)
  (anomalies : list string) :
  let prompt := LLMService._build_prompt metrics risk_level anomalies in
  Text.occurs_in ("левой груди: " ++ float_repr (avg_left metrics) ++ "°C") prompt /\
  Text.occurs_in ("правой груди: " ++ float_repr (avg_right metrics) ++ "°C") prompt /\
  Text.occurs_in ("асимметрия: " ++ float_repr (asymmetry metrics) ++ "°C") prompt /\
  Text.occurs_in ("Максимальная температура: " ++ float_repr (max_temp metrics) ++ "°C") prompt /\
  Text.occurs_in ("Уровень риска: " ++ level_str risk_level ++ nl) prompt /\
  Text.occurs_in ("Выявленные отклонения: " ++ Fallback.anomaly_text "нет" anomalies ++ nl) prompt.
Proof.
  intros prompt. unfold prompt, LLMService._build_prompt.
  fold (Fallback.anomaly_text "нет" anomalies).
  assert (F : forall (a pre x lit tail u : string),
             String.prefix u lit = true ->
             Text.occurs_in (a ++ x ++ u) ((pre ++ a) ++ x ++ lit ++ tail)).
  { intros a pre x lit tail u H. rewrite append_assoc.
    apply occurs_in_app_r, occurs_framed, H. }
  assert (G : forall (a pre x lit tail u t : string),
             String.prefix u lit = true ->
             t = (pre ++ a) ++ x ++ lit ++ tail ->
             Text.occurs_in (a ++ x ++ u) t).
  { intros a pre x lit tail u t H ->. now apply F. }
  repeat split.
  - do 7 apply occurs_in_app_r.
    eapply (G "левой груди: " "- Средняя температура " _ "°C" _ "°C"); reflexivity.
  - do 11 apply occurs_in_app_r.
    eapply (G "правой груди: " "- Средняя температура " _ "°C" _ "°C"); reflexivity.
  - do 15 apply occurs_in_app_r.
    eapply (G "асимметрия: " "- Температурная " _ "°C" _ "°C"); reflexivity.
  - do 19 apply occurs_in_app_r.
    eapply (G "Максимальная температура: " "- " _ "°C" _ "°C"); reflexivity.
  - do 23 apply occurs_in_app_r.
    eapply (G "Уровень риска: " "- " _ nl _ nl); reflexivity.
  - do 26 apply occurs_in_app_r.
    eapply (G "Выявленные отклонения: " "- " _ nl _ nl); reflexivity.
Qed.

(** ** The emoji of the bot *)

(** X14. The emoji the bot shows for a risk level is the one both
    conclusion texts of the backend open with. *)
Theorem get_risk_emoji_opens_conclusion (metrics : Metrics) (level : RiskLevel)
  (anomalies : list string) :
  String.prefix (Bot.get_risk_emoji (level_str level))
                (AnalyzerService.generate_conclusion metrics level anomalies) = true /\
  String.prefix (Bot.get_risk_emoji (level_str level))
                (LLMService._generate_rule_based metrics level anomalies) = true.
Proof.
  split.
  - destruct level; unfold AnalyzerService.generate_conclusion;
      rewrite ?add_bullets_spec; reflexivity.
  - destruct level; reflexivity.
Qed.

Lemma eqb_neq_sym (a b : string) : a <> b -> String.eqb b a = false.
Proof. intros H. apply String.eqb_neq. congruence. Qed.

(** X15. The bot shows the question mark exactly for the strings that
    are not one of the three levels, as the ["UNKNOWN"] the analysis
    routes give when no analysis is stored. *)
Theorem get_risk_emoji_unknown (risk_level : string) :
  Bot.get_risk_emoji risk_level = "❓" <-> forall level, risk_level <> level_str level.
Proof.
  unfold Bot.get_risk_emoji, Bot.dict_get. split.
  - intros H level ->. destruct level; cbn in H; discriminate.
  - intros H.
    pose proof (eqb_neq_sym _ _ (H NORMAL)) as H1.
    pose proof (eqb_neq_sym _ _ (H ELEVATED)) as H2.
    pose proof (eqb_neq_sym _ _ (H HIGH)) as H3.
    cbn [level_str] in H1, H2, H3. rewrite H1, H2, H3. reflexivity.
Qed.
